(** * sliver: lookup and fetch commands of [sliver/cli.py]

    A shallow embedding of the command line glue of the memento lifeboat:
    the configuration built by [EmbeddedWaybackCli.load], the [lookup]
    command (CDX index query and resume key extraction) and the [fetch]
    command (capture batch construction, proxy start, capture tool run and
    proxy stop).

    Python values are embedded as follows.
    - [str] is [string]; a character is a code point below 256.
    - [bytes] is [list Byte.byte].
    - a [dict] used as a map is a [gmap string pyval]; the query parameters,
      whose order reaches the query string, are an association list.
    - an exception is a value of [exn]; a command is a function from the
      process state to the new state and either an exception or a result.
    - the collaborators that live outside the repository (pywb, shot-scraper,
      urllib, yaml, the file system) are an [Env] of outcomes and a [PyLib]
      of pure functions. *)

From Stdlib Require Import String Ascii ZArith List Bool Lia.
From stdpp Require Import gmap strings list fin_maps.
Import ListNotations.

#[local] Open Scope string_scope.
#[local] Set Warnings "-register-all".

(** ** Python strings *)

Module PyStr.

(** [str.isspace] on one character, for the code points below 256:
    TAB, LF, VT, FF, CR, FS, GS, RS, US, SPACE, NEL and NBSP. *)
Definition isspace (c : ascii) : bool :=
  let n := nat_of_ascii c in
  (Nat.leb 9 n && Nat.leb n 13) || (Nat.leb 28 n && Nat.leb n 32)
  || Nat.eqb n 133 || Nat.eqb n 160.

Fixpoint lstrip (s : string) : string :=
  match s with
  | EmptyString => EmptyString
  | String c s' => if isspace c then lstrip s' else s
  end.

Fixpoint rstrip (s : string) : string :=
  match s with
  | EmptyString => EmptyString
  | String c s' =>
      match rstrip s' with
      | EmptyString => if isspace c then EmptyString else String c EmptyString
      | r => String c r
      end
  end.

(** [s.strip()] *)
Definition strip (s : string) : string := rstrip (lstrip s).

(** [s.startswith(p)] *)
Definition startswith (s p : string) : bool := String.prefix p s.

(** truth value of a string: [if s] *)
Definition truthy (s : string) : bool :=
  match s with EmptyString => false | _ => true end.

(** the line feed that ends a line of a text file or of a response *)
Definition LF : string := String "010"%char EmptyString.

End PyStr.

(** ** Python values, exceptions and log records *)

Inductive pyval :=
| PStr (s : string)
| PInt (n : Z)
| PBool (b : bool)
| PList (l : list pyval)
| PDict (d : gmap string pyval).

Inductive exn :=
| ValueError (msg : string)
| UsageError (msg : string)     (* click.BadParameter / argparse error: exit code 2 *)
| UnicodeDecodeError
| Raised (what : string).       (* raised by a collaborator outside the repository *)

Inductive level := INFO | WARNING.

(** ** Collaborators outside the repository *)

(** Pure library functions the commands call. *)
Class PyLib := {
  filename_for_url : string -> string;             (* shot_scraper.utils *)
  yaml_dump : pyval -> string;                     (* yaml.dump, the text written *)
  urlencode : list (string * pyval) -> string;     (* urllib.parse.urlencode *)
  decode_utf8 : list Byte.byte -> option string    (* bytes.decode('utf-8'); None raises *)
}.

(** Calls that leave the process, in the order they are made. *)
Inductive call :=
| CMakedirs (path : string)
| CStart (args : list string) (extra_config : pyval)
| CSleep (seconds : Z)
| CSetDefaultTimestamp (timestamp : string)
| CTempfile (name : string)
| CMulti (args : list string)
| CStop
| CUrlopen (url : string).

(** A trace entry: the call and whether it returned ([true]) or raised. *)
Definition event : Type := call * bool.

Definition returned (c : call) : event := (c, true).
Definition raised (c : call) : event := (c, false).

(** Outcomes the outside world chooses. [None] is a normal return. *)
Record Env := {
  env_makedirs : string -> option exn;
  env_start : list string -> option exn;
  env_tempdir : string;                     (* tempfile.gettempdir() *)
  env_random : string;                      (* the random part of a temporary name *)
  env_tempfile : option exn;
  env_multi : list string -> gmap string string -> option exn;
  env_stop : option exn;
  env_port : string;                        (* str(self.r.port), from the base parser *)
  env_urlopen : string -> exn + list (list Byte.byte)
}.

(** ** Process state and the command monad *)

Record World := {
  w_log : list (level * string);
  w_stdout : list string;
  w_trace : list event;
  w_files : gmap string string;
  w_proxy_default_timestamp : option string
}.

Definition world0 (fs : gmap string string) : World :=
  {| w_log := []; w_stdout := []; w_trace := []; w_files := fs;
     w_proxy_default_timestamp := None |}.

(** the world after the records [recs] were logged *)
Definition logged (recs : list (level * string)) (w : World) : World :=
  {| w_log := w_log w ++ recs; w_stdout := w_stdout w;
     w_trace := w_trace w; w_files := w_files w;
     w_proxy_default_timestamp := w_proxy_default_timestamp w |}.

(** the world after the lines [out] were echoed *)
Definition echoed (out : list string) (w : World) : World :=
  {| w_log := w_log w; w_stdout := w_stdout w ++ out;
     w_trace := w_trace w; w_files := w_files w;
     w_proxy_default_timestamp := w_proxy_default_timestamp w |}.

(** the world after the calls [es] were traced *)
Definition traced (es : list event) (w : World) : World :=
  {| w_log := w_log w; w_stdout := w_stdout w;
     w_trace := w_trace w ++ es; w_files := w_files w;
     w_proxy_default_timestamp := w_proxy_default_timestamp w |}.

(** the world with the files [fs] *)
Definition with_files (fs : gmap string string) (w : World) : World :=
  {| w_log := w_log w; w_stdout := w_stdout w;
     w_trace := w_trace w; w_files := fs;
     w_proxy_default_timestamp := w_proxy_default_timestamp w |}.

(** the world in which the proxy has the default timestamp [ts] *)
Definition with_default_timestamp (ts : string) (w : World) : World :=
  {| w_log := w_log w; w_stdout := w_stdout w;
     w_trace := w_trace w; w_files := w_files w;
     w_proxy_default_timestamp := Some ts |}.

Definition M (A : Type) : Type := World -> World * (exn + A).

Definition ret {A} (a : A) : M A := fun w => (w, inr a).

Definition raise {A} (e : exn) : M A := fun w => (w, inl e).

Definition bind {A B} (m : M A) (k : A -> M B) : M B :=
  fun w =>
    match m w with
    | (w', inl e) => (w', inl e)
    | (w', inr a) => k a w'
    end.

Notation "x <- m ;; k" := (bind m (fun x => k))
  (at level 100, m at next level, right associativity).
Notation "m ;; k" := (bind m (fun _ => k))
  (at level 100, right associativity).

(** [try: body finally: cleanup], the shape of a [with] statement: the
    cleanup runs on both exits and an exception of the body goes on. *)
Definition finally {A} (body : M A) (cleanup : M unit) : M A :=
  fun w =>
    match body w with
    | (w', inl e) =>
        match cleanup w' with
        | (w'', inl e') => (w'', inl e')
        | (w'', inr _) => (w'', inl e)
        end
    | (w', inr a) =>
        match cleanup w' with
        | (w'', inl e') => (w'', inl e')
        | (w'', inr _) => (w'', inr a)
        end
    end.

Definition logging (l : level) (msg : string) : M unit :=
  fun w => (logged [(l, msg)] w, inr tt).

(** [click.echo] *)
Definition echo (s : string) : M unit :=
  fun w => (echoed [s] w, inr tt).

Definition emit (e : event) : M unit :=
  fun w => (traced [e] w, inr tt).

(** An outside call: it is traced with its outcome and raises if the
    world says so. *)
Definition outside (c : call) (o : option exn) : M unit :=
  match o with
  | None => emit (returned c)
  | Some e => emit (raised c) ;; raise e
  end.

Definition write_file (name content : string) : M unit :=
  fun w => (with_files (<[name := content]> (w_files w)) w, inr tt).

Definition remove_file (name : string) : M unit :=
  fun w => (with_files (delete name (w_files w)) w, inr tt).

Definition get_files : M (gmap string string) :=
  fun w => (w, inr (w_files w)).

(** ** Dictionaries *)

Definition dict (items : list (string * pyval)) : pyval :=
  PDict (list_to_map items).

(** [d[k]], [None] when [d] is no dictionary or has no key [k] *)
Definition getitem (d : pyval) (k : string) : option pyval :=
  match d with
  | PDict m => m !! k
  | _ => None
  end.

(** [d[k] = v] *)
Definition setitem (k : string) (v : pyval) (d : pyval) : pyval :=
  match d with
  | PDict m => PDict (<[k := v]> m)
  | _ => d
  end.

(** an update below key [k]: [d[k]...] *)
Definition under (k : string) (f : pyval -> pyval) (d : pyval) : pyval :=
  match d with
  | PDict m => PDict (alter f k m)
  | _ => d
  end.

(** ** The embedded wayback: [EmbeddedWaybackCli] *)

Module EmbeddedWaybackCli.

(** the class attribute [sources] *)
Definition sources : gmap string string :=
  list_to_map
    [("live", "$live");
     ("ia", "memento+https://web.archive.org/web/");
     ("ia_cdx", "cdx+https://web.archive.org/cdx /web")].

(** the options [_extend_parser] adds, as parsed: [self.r] *)
Record Args := { r_source : string; r_timestamp : string }.

Definition defaults : Args :=
  {| r_source := "live"; r_timestamp := "19950101000000" |}.

(** [parser.parse_args(args)], read for the argument lists the repository
    passes, [['--source', v]]: on these it accepts and refuses as argparse
    does with [choices=sources.keys()], the text of the message apart.
    The options of the base parser and the other spellings argparse knows
    are not modelled, and no statement below is about other lists. *)
Fixpoint parse_args (args : list string) (r : Args) : exn + Args :=
  match args with
  | [] => inr r
  | opt :: v :: rest =>
      if String.eqb opt "--source" then
        match sources !! v with
        | Some _ =>
            parse_args rest {| r_source := v; r_timestamp := r_timestamp r |}
        | None => inl (UsageError "argument --source: invalid choice")
        end
      else if String.eqb opt "--timestamp" then
        parse_args rest {| r_source := r_source r; r_timestamp := v |}
      else inl (UsageError "unrecognized arguments")
  | _ :: [] => inl (UsageError "expected one argument")
  end.

(** [extra_config] as the first statement of [load] builds it *)
Definition extra_config0 (r : Args) : pyval :=
  dict
    [("collections",
       dict [("ia", PStr "memento+https://web.archive.org/web/");
             ("ia_cdx", PStr "cdx+https://web.archive.org/cdx /web");
             ("live", dict [("index", PStr "$live")]);
             ("stack", dict [("sequence", PList [])])]);
     ("recorder",
       dict [("source_coll", PStr "stack");
             ("source_filter", PStr "source");
             ("filename_template", PStr "SLIVER-{timestamp}-{random}.warc.gz")]);
     ("proxy",
       dict [("coll", PStr "mementos");
             ("recording", PBool true);
             ("default_timestamp", PStr (r_timestamp r))]);
     ("autoindex", PInt 10);
     ("enable_auto_fetch", PBool true);
     ("enable_wombat", PBool true)].

(** [self.extra_config['collections']['stack']['sequence'] = seq] *)
Definition set_sequence (seq : list pyval) (cfg : pyval) : pyval :=
  under "collections" (under "stack" (setitem "sequence" (PList seq))) cfg.

Definition live_sequence : list pyval :=
  [dict [("name", PStr "source"); ("index", PStr "$live")]].

Definition archive_sequence : list pyval :=
  [dict [("archive_paths", PStr "./collections/mementos/archive/");
         ("index_paths", PStr "./collections/mementos/indexes");
         ("name", PStr "mementos")];
   dict [("index", PStr "memento+https://web.archive.org/web/");
         ("name", PStr "source")]].

(** [load], up to the call of the base class: the configuration *)
Definition load (r : Args) : pyval :=
  if String.eqb (r_source r) "live"
  then set_sequence live_sequence (extra_config0 r)
  else set_sequence archive_sequence (extra_config0 r).

(** [extra_config['collections']['stack']['sequence']] *)
Definition sequence (cfg : pyval) : option pyval :=
  c ← getitem cfg "collections"; s ← getitem c "stack"; getitem s "sequence".

(** [EmbeddedWaybackCli(args=args)]: the arguments are parsed and [load]
    builds the configuration; a rejected argument exits. What the base
    class then does with the configuration is outside the repository. *)
Definition new (args : list string) : M pyval :=
  match parse_args args defaults with
  | inl e => raise e
  | inr r => ret (load r)
  end.

(** [run()], which the base class hands to [run_gevent]: it logs the
    start with the port of the parsed arguments and builds the
    [GeventServer] that serves the application in the background. The
    port is an option of the base parser, so the world gives it. Building
    the server is the outside call; it returns or raises. A failure of
    the base class while the constructor builds the application is not
    told apart from a failure of this call. *)
Definition run (env : Env) (args : list string) (cfg : pyval) : M unit :=
  logging INFO ("Starting Embedded Gevent Server on " ++ env_port env) ;;
  outside (CStart args cfg) (env_start env args).

(** [embedded.application.proxy_default_timestamp = timestamp] *)
Definition set_proxy_default_timestamp (timestamp : string) : M unit :=
  emit (returned (CSetDefaultTimestamp timestamp)) ;;
  fun w => (with_default_timestamp timestamp w, inr tt).

(** [embedded.ge.stop()] *)
Definition stop (env : Env) : M unit :=
  outside CStop (env_stop env).

End EmbeddedWaybackCli.

(** ** The commands *)

Section Commands.

Context `{PyLib}.
Variable env : Env.

(** *** lookup *)

(** [line.decode('utf-8')] *)
Definition decode (line : list Byte.byte) : M string :=
  match decode_utf8 line with
  | Some s => ret s
  | None => raise UnicodeDecodeError
  end.

(** The loop over the lines of the response. [ended] and [resumeKey]
    are the two variables of the loop; the result is [resumeKey] after
    the last line. *)
Fixpoint lookup_loop (response : list (list Byte.byte))
    (ended : bool) (resumeKey : option string) : M (option string) :=
  match response with
  | [] => ret resumeKey
  | line :: rest =>
      if negb ended then
        s <- decode line ;;
        let cdx := PyStr.strip s in
        if String.eqb cdx "" then lookup_loop rest true resumeKey
        else (echo cdx ;; lookup_loop rest ended resumeKey)
      else
        match resumeKey with
        | None =>
            s <- decode line ;;
            lookup_loop rest ended (Some (PyStr.strip s))
        | Some _ => lookup_loop rest ended resumeKey
        end
  end.

(** [urllib.request.urlopen(full_url)] *)
Definition urlopen (full_url : string) : M (list (list Byte.byte)) :=
  match env_urlopen env full_url with
  | inl e => emit (raised (CUrlopen full_url)) ;; raise e
  | inr response => emit (returned (CUrlopen full_url)) ;; ret response
  end.

(** the [params] dictionary, in insertion order *)
Definition params (url matchType filter : string) : list (string * pyval) :=
  [("url", PStr url);
   ("collapse", PStr "urlkey");
   ("matchType", PStr matchType);
   ("limit", PInt 10000);
   ("filter", PStr filter);
   ("showResumeKey", PBool true)].

(** The branch on [source]: the endpoint, the match type and the filter. *)
Definition select_source (source : string) : M (string * string * string) :=
  let matchType := "prefix" in
  let filter := "statuscode:[23].." in
  if String.eqb source "cc-2025-05" || String.eqb source "cc" then
    let URL := "http://index.commoncrawl.org/CC-MAIN-2025-05-index" in
    let matchType := "host" in
    logging WARNING "Common Crawl index is used, which only supports host-level prefix searches. This may take a while..." ;;
    let filter := "" in
    ret (URL, matchType, filter)
  else if String.eqb source "ia" then
    let URL := "https://web.archive.org/cdx/search/cdx" in
    ret (URL, matchType, filter)
  else if String.eqb source "live" then
    raise (ValueError "No currently defined method for looking up prefix queries on the live web!")
  else
    raise (ValueError "Unknown source!").

Definition lookup (url source : string) : M unit :=
  logging INFO ("Lookup URLs starting with: " ++ url) ;;
  sel <- select_source source ;;
  let '(URL, matchType, filter) := sel in
  logging INFO ("Using source: " ++ source) ;;
  let query_string := urlencode (params url matchType filter) in
  let full_url := URL ++ "?" ++ query_string in
  logging INFO ("Full URL: " ++ full_url) ;;
  let resumeKey := None in
  let ended := false in
  response <- urlopen full_url ;;
  resumeKey <- lookup_loop response ended resumeKey ;;
  match resumeKey with
  | Some k =>
      logging WARNING ("Use the following resume key for the next query: " ++ k)
  | None => ret tt
  end.

(** *** fetch *)

(** one entry of [shots] *)
Definition shot (url : string) : pyval :=
  dict [("url", PStr url);
        ("output", PStr ("collections/mementos/screenshots/" ++ filename_for_url url));
        ("wait", PInt 15000);
        ("width", PInt 800);
        ("height", PInt 800);
        ("padding", PInt 0)].

(** The loop over the lines of [url_file], [shots] being the list built
    so far. *)
Fixpoint shots_loop (url_file : list string) (shots : list pyval) : list pyval :=
  match url_file with
  | [] => shots
  | url :: rest =>
      let url := PyStr.strip url in
      if PyStr.truthy url && negb (PyStr.startswith url "#")
      then shots_loop rest (shots ++ [shot url])
      else shots_loop rest shots
  end.

Definition build_shots (url_file : list string) : list pyval :=
  shots_loop url_file [].

(** [os.makedirs(path, exist_ok=True)] *)
Definition makedirs (path : string) : M unit :=
  outside (CMakedirs path) (env_makedirs env path).

(** the name [tempfile.NamedTemporaryFile(prefix=.., suffix=..)] picks *)
Definition temp_name (prefix suffix : string) : string :=
  env_tempdir env ++ "/" ++ prefix ++ env_random env ++ suffix.

(** [tempfile.NamedTemporaryFile(mode="w", prefix=.., suffix=.., delete=..)]:
    the file is created empty. *)
Definition NamedTemporaryFile (prefix suffix : string) : M string :=
  let name := temp_name prefix suffix in
  outside (CTempfile name) (env_tempfile env) ;;
  write_file name "" ;;
  ret name.

(** [fp.close()], also what leaving the [with] block does: the file is
    removed only when it was opened with [delete=True]. *)
Definition close (name : string) (delete : bool) : M unit :=
  if delete then remove_file name else ret tt.

Definition multi_args (name : string) : list string :=
  ["--browser-arg"; "--ignore-certificate-errors";
   "--browser-arg"; "--proxy-server=http://localhost:8080"; name].

(** [multi(args)], the capture tool of shot-scraper: it reads the job
    list and returns or raises. *)
Definition multi (args : list string) : M unit :=
  files <- get_files ;;
  outside (CMulti args) (env_multi env args files).

Definition fetch (url_file : list string) (source timestamp : string) : M unit :=
  logging INFO "Fetch command executed" ;;
  makedirs "collections/mementos/indexes" ;;
  makedirs "collections/mementos/archive" ;;
  makedirs "collections/mementos/screenshots" ;;
  embedded <- EmbeddedWaybackCli.new ["--source"; source] ;;
  EmbeddedWaybackCli.run env ["--source"; source] embedded ;;
  logging INFO "PyWB started..." ;;
  outside (CSleep 3) None ;;
  let shots := build_shots url_file in
  EmbeddedWaybackCli.set_proxy_default_timestamp timestamp ;;
  fp <- NamedTemporaryFile "shots-" ".yaml" ;;
  finally
    (write_file fp (yaml_dump (PList shots)) ;;
     close fp false ;;
     multi (multi_args fp))
    (close fp false) ;;
  EmbeddedWaybackCli.stop env ;;
  logging INFO "PyWB stopped.".

(** *** The click layer *)

(** [source_option]: [click.Choice(['live', 'ia'])], default ["live"] *)
Definition source_option (given : option string) : M string :=
  match given with
  | None => ret "live"
  | Some s =>
      if String.eqb s "live" || String.eqb s "ia" then ret s
      else raise (UsageError "Invalid value for '-s' / '--source'")
  end.

(** [--timestamp], a string with default ["19950101000000"] *)
Definition timestamp_option (given : option string) : M string :=
  match given with
  | None => ret "19950101000000"
  | Some t => ret t
  end.

(** [sliver lookup URL [-s SOURCE]] *)
Definition lookup_command (url : string) (source : option string) : M unit :=
  source <- source_option source ;;
  lookup url source.

(** [sliver fetch URL_FILE [-s SOURCE] [-t TIMESTAMP]] *)
Definition fetch_command (url_file : list string)
    (source timestamp : option string) : M unit :=
  source <- source_option source ;;
  timestamp <- timestamp_option timestamp ;;
  fetch url_file source timestamp.

End Commands.

(** ** Observations on a run *)

Definition is_start (e : event) : bool :=
  match e with (CStart _ _, true) => true | _ => false end.

Definition is_stop (e : event) : bool :=
  match e with (CStop, _) => true | _ => false end.

Definition is_multi (e : event) : bool :=
  match e with (CMulti _, _) => true | _ => false end.

Definition is_multi_returned (e : event) : bool :=
  match e with (CMulti _, true) => true | _ => false end.

Definition is_set_timestamp (e : event) : bool :=
  match e with (CSetDefaultTimestamp _, _) => true | _ => false end.

Definition is_urlopen (e : event) : bool :=
  match e with (CUrlopen _, _) => true | _ => false end.

(** how many entries of a trace satisfy [p] *)
Definition count (p : event -> bool) (t : list event) : nat :=
  length (List.filter p t).

(** some entry of the trace satisfies [p] *)
Definition occurs (p : event -> bool) (t : list event) : bool :=
  existsb p t.

(** ** A library and a world to run the commands in

    Stand-ins for the collaborators, to evaluate the commands on concrete
    inputs: file names are the URL with [.png], the job list is written as
    the number of its jobs, the query string is the URL alone, and bytes
    decode when all of them are ASCII. *)

Definition ascii_byte (b : Byte.byte) : bool :=
  Nat.ltb (nat_of_ascii (ascii_of_byte b)) 128.

Definition sample_lib : PyLib := {|
  filename_for_url := fun url => url ++ ".png";
  yaml_dump := fun v =>
    match v with
    | PList l => String.concat "" (List.map (fun _ => "- job" ++ PyStr.LF) l)
    | _ => ""
    end;
  urlencode := fun ps =>
    match ps with
    | (_, PStr u) :: _ => "url=" ++ u
    | _ => ""
    end;
  decode_utf8 := fun bs =>
    if forallb ascii_byte bs then Some (string_of_list_byte bs) else None
|}.

(** a world in which every call returns and the index answers [response] *)
Definition calm (response : list (list Byte.byte)) : Env :=
  {| env_makedirs := fun _ => None;
     env_start := fun _ => None;
     env_tempdir := "/tmp";
     env_random := "k3x9";
     env_tempfile := None;
     env_multi := fun _ _ => None;
     env_stop := None;
     env_port := "8080";
     env_urlopen := fun _ => inr response |}.

(** the same world, but the capture tool raises *)
Definition capture_fails : Env :=
  {| env_makedirs := fun _ => None;
     env_start := fun _ => None;
     env_tempdir := "/tmp";
     env_random := "k3x9";
     env_tempfile := None;
     env_multi := fun _ _ => Some (Raised "shot-scraper");
     env_stop := None;
     env_port := "8080";
     env_urlopen := fun _ => inr [] |}.

(** a line of a response: the text and its line feed, as bytes *)
Definition bline (s : string) : list Byte.byte :=
  list_byte_of_string (s ++ PyStr.LF).

(** ** Notions the statements use *)

(** the test of the loop of [fetch] on a stripped line *)
Definition wanted (url : string) : bool :=
  PyStr.truthy url && negb (PyStr.startswith url "#").

(** a line of [url_file] begins with the comment marker *)
Definition comment_line (line : string) : bool :=
  PyStr.startswith line "#".

(** the text of a line of a response: decoded and stripped *)
Definition record_of `{PyLib} (line : list Byte.byte) : string :=
  match decode_utf8 line with
  | Some s => PyStr.strip s
  | None => EmptyString
  end.

(** a line of a response that decodes, to a record or to a blank line *)
Definition record_line `{PyLib} (line : list Byte.byte) : Prop :=
  exists s, decode_utf8 line = Some s /\ PyStr.strip s <> "".

Definition blank_line `{PyLib} (line : list Byte.byte) : Prop :=
  exists s, decode_utf8 line = Some s /\ PyStr.strip s = "".

(** the line that follows the blank line, if any, decodes *)
Definition decodable_head `{PyLib} (tail : list (list Byte.byte)) : Prop :=
  match tail with
  | [] => True
  | k :: _ => exists s, decode_utf8 k = Some s
  end.

(** the prefix of the message that reports a resume key *)
Definition resume_message : string :=
  "Use the following resume key for the next query: ".

(** the log records that report the resume key [k] *)
Definition resume_report (k : option string) : list (level * string) :=
  match k with
  | Some k => [(WARNING, resume_message ++ k)]
  | None => []
  end.

Definition is_resume_report (r : level * string) : bool :=
  match r with
  | (WARNING, msg) => String.prefix resume_message msg
  | (INFO, _) => false
  end.

(** the resume key reports of a log *)
Definition resume_reports (log : list (level * string)) : list (level * string) :=
  List.filter is_resume_report log.

(** The continuation token as the specification words it: the next
    non-empty line after the first blank line, [tail] being the lines
    after that blank line. *)
Fixpoint spec_continuation_token `{PyLib} (tail : list (list Byte.byte))
    : option string :=
  match tail with
  | [] => None
  | k :: rest =>
      if String.eqb (record_of k) "" then spec_continuation_token rest
      else Some (record_of k)
  end.

(** the token [lookup] takes: the line right after the blank line *)
Definition continuation_token `{PyLib} (tail : list (list Byte.byte))
    : option string :=
  match tail with
  | [] => None
  | k :: _ => Some (record_of k)
  end.

Definition is_digit (c : ascii) : bool :=
  let n := nat_of_ascii c in Nat.leb 48 n && Nat.leb n 57.

Fixpoint all_digits (s : string) : bool :=
  match s with
  | EmptyString => true
  | String c s' => is_digit c && all_digits s'
  end.

(** a timestamp in the 14-digit format [YYYYMMDDHHMMSS] *)
Definition timestamp14 (s : string) : bool :=
  Nat.eqb (String.length s) 14 && all_digits s.

(** the sources [lookup] has a branch for *)
Definition known_sources : list string := ["cc-2025-05"; "cc"; "ia"; "live"].

(** the exception of a run, if it raised *)
Definition failure {A} (r : World * (exn + A)) : option exn :=
  match snd r with
  | inl e => Some e
  | inr _ => None
  end.

(** the two index endpoints of [lookup] *)
Definition commoncrawl_index : string :=
  "http://index.commoncrawl.org/CC-MAIN-2025-05-index".

Definition internet_archive_index : string :=
  "https://web.archive.org/cdx/search/cdx".

(** every call [fetch] makes returns *)
Definition all_return (env : Env) : Prop :=
  (forall path, env_makedirs env path = None)
  /\ (forall args, env_start env args = None)
  /\ env_tempfile env = None
  /\ (forall args files, env_multi env args files = None)
  /\ env_stop env = None.

(** the sources [lookup] sends a query for *)
Definition query_sources : list string := ["cc-2025-05"; "cc"; "ia"].

Definition commoncrawl_warning : level * string :=
  (WARNING, "Common Crawl index is used, which only supports host-level prefix searches. This may take a while...").

(** ** Further notions: edges of a string, kinds of calls, more worlds *)

(** the first and the last character of a string *)
Definition head_char (s : string) : option ascii :=
  match s with
  | EmptyString => None
  | String c _ => Some c
  end.

Fixpoint last_char (s : string) : option ascii :=
  match s with
  | EmptyString => None
  | String c EmptyString => Some c
  | String _ s' => last_char s'
  end.

(** a non-empty string with no white space at either end *)
Definition trimmed (s : string) : Prop :=
  (exists c, head_char s = Some c /\ PyStr.isspace c = false)
  /\ (exists c, last_char s = Some c /\ PyStr.isspace c = false).

(** the URL a job carries *)
Definition shot_url (job : pyval) : option string :=
  match getitem job "url" with
  | Some (PStr u) => Some u
  | _ => None
  end.

Definition is_raised (e : event) : bool := negb (snd e).

Definition is_tempfile (e : event) : bool :=
  match e with (CTempfile _, _) => true | _ => false end.

Definition is_makedirs (e : event) : bool :=
  match e with (CMakedirs _, _) => true | _ => false end.

Definition is_start_call (e : event) : bool :=
  match e with (CStart _ _, _) => true | _ => false end.

(** the three folders [fetch] makes, in its order *)
Definition folders : list event :=
  [returned (CMakedirs "collections/mementos/indexes");
   returned (CMakedirs "collections/mementos/archive");
   returned (CMakedirs "collections/mementos/screenshots")].

(** what [self.r] is when [fetch] builds the embedded wayback *)
Definition fetch_args (source : string) : EmbeddedWaybackCli.Args :=
  {| EmbeddedWaybackCli.r_source := source;
     EmbeddedWaybackCli.r_timestamp := "19950101000000" |}.

(** [cfg['proxy']['default_timestamp']] *)
Definition config_default_timestamp (cfg : pyval) : option pyval :=
  p ← getitem cfg "proxy"; getitem p "default_timestamp".

(** The configuration asks for recording: it has a recorder section and
    the proxy section has [recording] set to [True]. *)
Definition recording_configured (cfg : pyval) : bool :=
  match getitem cfg "recorder", getitem cfg "proxy" with
  | Some _, Some proxy =>
      match getitem proxy "recording" with
      | Some (PBool true) => true
      | _ => false
      end
  | _, _ => false
  end.

(** the tier has the name [n] *)
Definition named (n : string) (tier : pyval) : bool :=
  match getitem tier "name" with
  | Some (PStr s) => String.eqb s n
  | _ => false
  end.

(** a world in which the index cannot be reached *)
Definition offline : Env :=
  {| env_makedirs := fun _ => None;
     env_start := fun _ => None;
     env_tempdir := "/tmp";
     env_random := "k3x9";
     env_tempfile := None;
     env_multi := fun _ _ => None;
     env_stop := None;
     env_port := "8080";
     env_urlopen := fun _ => inl (Raised "URLError") |}.

(** a world in which the embedded wayback does not start *)
Definition start_fails : Env :=
  {| env_makedirs := fun _ => None;
     env_start := fun _ => Some (Raised "OSError");
     env_tempdir := "/tmp";
     env_random := "k3x9";
     env_tempfile := None;
     env_multi := fun _ _ => None;
     env_stop := None;
     env_port := "8080";
     env_urlopen := fun _ => inr [] |}.

(** bytes that the sample library does not decode *)
Definition undecodable : list Byte.byte := [Byte.xff; Byte.x0a].

(** ** Python strings: facts *)

Module PyStrFacts.
Import PyStr.

Lemma rstrip_cons_nonspace c s :
  isspace c = false -> exists r, rstrip (String c s) = String c r.
Proof.
  intros Hc. simpl. destruct (rstrip s) as [|c' r].
  - rewrite Hc. now exists EmptyString.
  - now exists (String c' r).
Qed.

Lemma strip_cons_nonspace c s :
  isspace c = false -> exists r, strip (String c s) = String c r.
Proof.
  intros Hc. unfold strip. simpl lstrip. rewrite Hc.
  now apply rstrip_cons_nonspace.
Qed.

Lemma prefix_cons a p b s :
  String.prefix (String a p) (String b s)
  = if Ascii.ascii_dec a b then String.prefix p s else false.
Proof. reflexivity. Qed.

Lemma prefix_empty s : String.prefix EmptyString s = true.
Proof. now destruct s. Qed.

(** a line that begins with the comment marker still does after [strip] *)
Lemma strip_keeps_comment line :
  startswith line "#" = true -> startswith (strip line) "#" = true.
Proof.
  unfold startswith. destruct line as [|c s]; [discriminate|].
  rewrite prefix_cons.
  destruct (Ascii.ascii_dec "#"%char c) as [<-|Hne]; [|discriminate].
  intros _.
  destruct (strip_cons_nonspace "#"%char s eq_refl) as [r ->].
  rewrite prefix_cons.
  destruct (Ascii.ascii_dec "#"%char "#"%char); [apply prefix_empty | congruence].
Qed.

Lemma prefix_app p s : String.prefix p (p ++ s) = true.
Proof.
  induction p as [|c p IH].
  - apply prefix_empty.
  - change (String c p ++ s) with (String c (p ++ s)). rewrite prefix_cons.
    destruct (Ascii.ascii_dec c c); [exact IH | congruence].
Qed.

End PyStrFacts.

(** ** The source stack built by [load] *)

Section Stack.
Import EmbeddedWaybackCli.

Lemma load_live r :
  r_source r = "live" -> load r = set_sequence live_sequence (extra_config0 r).
Proof. intros E. unfold load. now rewrite E. Qed.

Lemma load_archive r :
  r_source r <> "live" ->
  load r = set_sequence archive_sequence (extra_config0 r).
Proof.
  intros E. unfold load.
  destruct (String.eqb_spec (r_source r) "live"); [contradiction | reflexivity].
Qed.

Lemma sequence_set_sequence seq r :
  sequence (set_sequence seq (extra_config0 r)) = Some (PList seq).
Proof. reflexivity. Qed.

(** the recorder and the proxy sections do not depend on the source *)
Lemma load_recording_settings r :
  getitem (load r) "recorder" = getitem (extra_config0 r) "recorder"
  /\ getitem (load r) "proxy" = getitem (extra_config0 r) "proxy".
Proof.
  unfold load. destruct (String.eqb (r_source r) "live"); split; reflexivity.
Qed.

End Stack.

(** C6 as stated fails: with the source [live] the stack is the single
    tier on the live web, but persistence is configured all the same: the
    recorder section is there with its file name template, and the proxy
    records into the collection [mementos]. *)
Lemma load_live_recording_counterexample :
  let cfg :=
    EmbeddedWaybackCli.load
      {| EmbeddedWaybackCli.r_source := "live";
         EmbeddedWaybackCli.r_timestamp := "19950101000000" |} in
  EmbeddedWaybackCli.sequence cfg = Some (PList EmbeddedWaybackCli.live_sequence)
  /\ (getitem cfg "recorder" ≫= fun rec => getitem rec "filename_template")
     = Some (PStr "SLIVER-{timestamp}-{random}.warc.gz")
  /\ (getitem cfg "proxy" ≫= fun proxy => getitem proxy "recording")
     = Some (PBool true)
  /\ (getitem cfg "proxy" ≫= fun proxy => getitem proxy "coll")
     = Some (PStr "mementos")
  /\ recording_configured cfg = true
  /\ recording_configured cfg <> false.
Proof.
  split; [reflexivity|]. split; [reflexivity|]. split; [reflexivity|].
  split; [reflexivity|]. split; [reflexivity|]. discriminate.
Qed.

(** C6 (amended). With the source [live] the stack that [load] builds is
    one tier, whose index is the live web and which has no archive or
    index paths of its own; with any other source it is two tiers, first
    the local tier [mementos] with its archive and index paths, second the
    remote tier on the index of the Internet Archive. For every source,
    [live] too, recording is configured: the recorder section takes the
    collection [stack] and names the files to write, and the proxy records
    into the collection [mementos]. *)
Theorem load_stack_and_recording (r : EmbeddedWaybackCli.Args) :
  (EmbeddedWaybackCli.r_source r = "live" ->
   exists tier,
     EmbeddedWaybackCli.sequence (EmbeddedWaybackCli.load r) = Some (PList [tier])
     /\ getitem tier "index" = Some (PStr "$live")
     /\ Some (PStr "$live") = PStr <$> (EmbeddedWaybackCli.sources !! "live")
     /\ getitem tier "name" = Some (PStr "source")
     /\ getitem tier "archive_paths" = None
     /\ getitem tier "index_paths" = None)
  /\
  (EmbeddedWaybackCli.r_source r <> "live" ->
   exists local remote,
     EmbeddedWaybackCli.sequence (EmbeddedWaybackCli.load r)
       = Some (PList [local; remote])
     /\ getitem local "name" = Some (PStr "mementos")
     /\ getitem local "archive_paths" = Some (PStr "./collections/mementos/archive/")
     /\ getitem local "index_paths" = Some (PStr "./collections/mementos/indexes")
     /\ getitem local "index" = None
     /\ getitem remote "name" = Some (PStr "source")
     /\ getitem remote "index" = PStr <$> (EmbeddedWaybackCli.sources !! "ia")
     /\ getitem remote "archive_paths" = None
     /\ getitem remote "index_paths" = None)
  /\
  (recording_configured (EmbeddedWaybackCli.load r) = true
   /\ exists recorder proxy,
        getitem (EmbeddedWaybackCli.load r) "recorder" = Some recorder
        /\ getitem (EmbeddedWaybackCli.load r) "proxy" = Some proxy
        /\ getitem recorder "source_coll" = Some (PStr "stack")
        /\ getitem recorder "filename_template"
           = Some (PStr "SLIVER-{timestamp}-{random}.warc.gz")
        /\ getitem proxy "recording" = Some (PBool true)
        /\ getitem proxy "coll" = Some (PStr "mementos")).
Proof.
  split; [|split].
  - intros E. rewrite (load_live r E), sequence_set_sequence.
    eexists. split; [reflexivity|]. repeat split; reflexivity.
  - intros E. rewrite (load_archive r E), sequence_set_sequence.
    do 2 eexists. split; [reflexivity|]. repeat split; reflexivity.
  - unfold EmbeddedWaybackCli.load.
    destruct (String.eqb (EmbeddedWaybackCli.r_source r) "live");
      (split; [reflexivity|]); do 2 eexists;
      (split; [reflexivity|]); (split; [reflexivity|]);
      repeat split; reflexivity.
Qed.

Lemma load_stack_and_recording_witness :
  (exists tier,
     EmbeddedWaybackCli.sequence
       (EmbeddedWaybackCli.load
          {| EmbeddedWaybackCli.r_source := "live";
             EmbeddedWaybackCli.r_timestamp := "19950101000000" |})
     = Some (PList [tier])
     /\ getitem tier "index" = Some (PStr "$live"))
  /\
  (exists local remote,
     EmbeddedWaybackCli.sequence
       (EmbeddedWaybackCli.load
          {| EmbeddedWaybackCli.r_source := "ia_cdx";
             EmbeddedWaybackCli.r_timestamp := "19950101000000" |})
     = Some (PList [local; remote])
     /\ getitem local "name" = Some (PStr "mementos")
     /\ getitem remote "name" = Some (PStr "source")).
Proof.
  split.
  - destruct (proj1 (load_stack_and_recording
        {| EmbeddedWaybackCli.r_source := "live";
           EmbeddedWaybackCli.r_timestamp := "19950101000000" |}) eq_refl)
      as (tier & Hs & Hi & _).
    exists tier. split; assumption.
  - assert (Hne : "ia_cdx" <> "live") by discriminate.
    destruct (proj1 (proj2 (load_stack_and_recording
        {| EmbeddedWaybackCli.r_source := "ia_cdx";
           EmbeddedWaybackCli.r_timestamp := "19950101000000" |})) Hne)
      as (local & remote & Hs & Hn & _ & _ & _ & Hr & _).
    exists local, remote. repeat split; assumption.
Defined.

(** ** The capture batch *)

Section Shots.
Context `{PyLib}.

Lemma shots_loop_spec url_file shots :
  shots_loop url_file shots
  = (shots ++ List.map shot (List.filter wanted (List.map PyStr.strip url_file)))%list.
Proof.
  revert shots. induction url_file as [|line rest IH]; intros shots.
  - simpl. now rewrite app_nil_r.
  - cbn [shots_loop List.map List.filter]. fold (wanted (PyStr.strip line)).
    destruct (wanted (PyStr.strip line)).
    + rewrite IH. cbn [List.map]. now rewrite <- app_assoc.
    + apply IH.
Qed.

Lemma build_shots_spec url_file :
  build_shots url_file
  = List.map shot (List.filter wanted (List.map PyStr.strip url_file)).
Proof. unfold build_shots. now rewrite shots_loop_spec. Qed.

Lemma comment_line_unwanted line :
  comment_line line = true -> wanted (PyStr.strip line) = false.
Proof.
  unfold comment_line, wanted. intros Hc.
  rewrite (PyStrFacts.strip_keeps_comment line Hc).
  now rewrite andb_false_r.
Qed.

Lemma wanted_inv url :
  wanted url = true -> url <> "" /\ PyStr.startswith url "#" = false.
Proof.
  unfold wanted. intros Hw. apply andb_true_iff in Hw as [Ht Hs].
  split.
  - intros ->. discriminate.
  - now apply negb_true_iff.
Qed.

End Shots.

(** C7. The batch [fetch] builds has one job for each line of the input
    that is non-empty after [strip] and does not begin with [#], in the
    order of the input; a line that begins with [#] gets no job; a job
    carries the stripped line as its URL, an output path made of the
    screenshots folder and [filename_for_url] of the URL, and the fixed
    wait, width, height and padding. The four-line example of the
    specification gives the two expected jobs. *)
Theorem fetch_batch_construction `{PyLib} (url_file : list string) :
  build_shots url_file
    = List.map shot (List.filter wanted (List.map PyStr.strip url_file))
  /\ (forall line, comment_line line = true -> wanted (PyStr.strip line) = false)
  /\ (forall line,
        wanted (PyStr.strip line) = true ->
        PyStr.strip line <> "" /\ comment_line line = false)
  /\ (forall url,
        getitem (shot url) "url" = Some (PStr url)
        /\ getitem (shot url) "output"
           = Some (PStr ("collections/mementos/screenshots/" ++ filename_for_url url))
        /\ getitem (shot url) "wait" = Some (PInt 15000)
        /\ getitem (shot url) "width" = Some (PInt 800)
        /\ getitem (shot url) "height" = Some (PInt 800)
        /\ getitem (shot url) "padding" = Some (PInt 0))
  /\ build_shots ["https://a.example/"; ""; "# comment"; "https://b.example/"]
     = [shot "https://a.example/"; shot "https://b.example/"].
Proof.
  split; [apply build_shots_spec|].
  split; [exact comment_line_unwanted|].
  split.
  { intros line Hw. split.
    - now apply wanted_inv.
    - destruct (comment_line line) eqn:Hc; [|reflexivity].
      rewrite (comment_line_unwanted line Hc) in Hw. discriminate. }
  split.
  { intros url. repeat split; reflexivity. }
  rewrite build_shots_spec. reflexivity.
Qed.

Lemma fetch_batch_construction_witness :
  wanted (PyStr.strip "# comment") = false
  /\ PyStr.strip " https://a.example/ " <> "".
Proof.
  destruct (@fetch_batch_construction sample_lib []) as (_ & Hc & Hw & _).
  split.
  - apply Hc. reflexivity.
  - apply Hw. reflexivity.
Defined.

(** ** The loop of [lookup] over the response *)

Section LookupLoop.
Context `{PyLib}.

Lemma echoed_nil w : echoed [] w = w.
Proof. destruct w. unfold echoed. simpl. now rewrite app_nil_r. Qed.

Lemma echoed_app out out' w : echoed out' (echoed out w) = echoed (out ++ out') w.
Proof. unfold echoed. simpl. now rewrite app_assoc. Qed.

Lemma record_of_decoded line s :
  decode_utf8 line = Some s -> record_of line = PyStr.strip s.
Proof. intros E. unfold record_of. now rewrite E. Qed.

(** once a resume key is set, the rest of the response is skipped *)
Lemma lookup_loop_done response k w :
  lookup_loop response true (Some k) w = (w, inr (Some k)).
Proof. induction response as [|line rest IH]; [reflexivity | exact IH]. Qed.

(** after the blank line: the next line, if any, is the resume key *)
Lemma lookup_loop_ended tail w :
  decodable_head tail ->
  lookup_loop tail true None w = (w, inr (continuation_token tail)).
Proof.
  destruct tail as [|k rest]; [reflexivity|].
  intros [s Hs]. cbn [lookup_loop negb]. unfold bind, decode. rewrite Hs.
  cbn [ret]. rewrite lookup_loop_done. unfold continuation_token.
  now rewrite (record_of_decoded k s Hs).
Qed.

(** a record line is echoed and the loop goes on *)
Lemma lookup_loop_record line rest w :
  record_line line ->
  lookup_loop (line :: rest) false None w
  = lookup_loop rest false None (echoed [record_of line] w).
Proof.
  intros [s [Hs Hne]]. cbn [lookup_loop negb]. unfold bind, decode. rewrite Hs.
  cbn [ret]. rewrite (record_of_decoded line s Hs).
  destruct (String.eqb_spec (PyStr.strip s) ""); [contradiction | reflexivity].
Qed.

(** the blank line ends the records *)
Lemma lookup_loop_blank line rest w :
  blank_line line ->
  lookup_loop (line :: rest) false None w = lookup_loop rest true None w.
Proof.
  intros [s [Hs He]]. cbn [lookup_loop negb]. unfold bind, decode. rewrite Hs.
  cbn [ret]. rewrite He. reflexivity.
Qed.

Lemma lookup_loop_records recs rest w :
  Forall record_line recs ->
  lookup_loop (recs ++ rest) false None w
  = lookup_loop rest false None (echoed (List.map record_of recs) w).
Proof.
  intros Hrecs. revert w.
  induction Hrecs as [|line recs Hline _ IH]; intros w.
  - simpl. now rewrite echoed_nil.
  - change ((line :: recs) ++ rest)%list with (line :: (recs ++ rest))%list.
    rewrite (lookup_loop_record line _ w Hline), IH, echoed_app. reflexivity.
Qed.

(** the whole response: records, the blank line, the rest *)
Lemma lookup_loop_response recs blank tail w :
  Forall record_line recs -> blank_line blank -> decodable_head tail ->
  lookup_loop (recs ++ blank :: tail) false None w
  = (echoed (List.map record_of recs) w, inr (continuation_token tail)).
Proof.
  intros Hrecs Hblank Htail.
  rewrite (lookup_loop_records recs _ w Hrecs).
  rewrite (lookup_loop_blank blank tail _ Hblank).
  now apply lookup_loop_ended.
Qed.

(** the loop only writes to the standard output *)
Lemma lookup_loop_frame response ended k w :
  let w' := fst (lookup_loop response ended k w) in
  w_trace w' = w_trace w /\ w_log w' = w_log w /\ w_files w' = w_files w.
Proof.
  revert ended k w.
  induction response as [|line rest IH]; intros ended k w; [now simpl|].
  cbn [lookup_loop]. destruct ended; cbn [negb].
  - destruct k as [k|]; [apply IH|].
    unfold bind, decode. destruct (decode_utf8 line); [apply IH | now simpl].
  - unfold bind, decode. destruct (decode_utf8 line) as [s|]; [|now simpl].
    cbn [ret]. destruct (String.eqb (PyStr.strip s) ""); [apply IH|].
    unfold echo. exact (IH false k (echoed [PyStr.strip s] w)).
Qed.

End LookupLoop.

(** ** The branch of [lookup] on the source *)

Section SelectSource.

Lemma select_source_cc source w :
  source = "cc-2025-05" \/ source = "cc" ->
  select_source source w
  = (logged [commoncrawl_warning] w, inr (commoncrawl_index, "host", "")).
Proof. intros [-> | ->]; reflexivity. Qed.

Lemma select_source_ia w :
  select_source "ia" w
  = (w, inr (internet_archive_index, "prefix", "statuscode:[23]..")).
Proof. reflexivity. Qed.

Lemma select_source_live w :
  select_source "live" w
  = (w, inl (ValueError "No currently defined method for looking up prefix queries on the live web!")).
Proof. reflexivity. Qed.

Lemma select_source_unknown source w :
  ~ In source known_sources ->
  select_source source w = (w, inl (ValueError "Unknown source!")).
Proof.
  intros Hn. unfold select_source.
  destruct (String.eqb_spec source "cc-2025-05") as [->|_].
  { exfalso. apply Hn. simpl. tauto. }
  destruct (String.eqb_spec source "cc") as [->|_].
  { exfalso. apply Hn. simpl. tauto. }
  destruct (String.eqb_spec source "ia") as [->|_].
  { exfalso. apply Hn. simpl. tauto. }
  destruct (String.eqb_spec source "live") as [->|_].
  { exfalso. apply Hn. simpl. tauto. }
  reflexivity.
Qed.

(** what a source that is queried selects *)
Lemma select_source_query source w :
  In source query_sources ->
  exists pre URL matchType filter,
    select_source source w = (logged pre w, inr (URL, matchType, filter))
    /\ resume_reports pre = [].
Proof.
  intros Hin. simpl in Hin. destruct Hin as [<- | [<- | [<- | []]]].
  - exists [commoncrawl_warning], commoncrawl_index, "host", "".
    split; reflexivity.
  - exists [commoncrawl_warning], commoncrawl_index, "host", "".
    split; reflexivity.
  - exists [], internet_archive_index, "prefix", "statuscode:[23]..".
    split; [|reflexivity]. rewrite select_source_ia. unfold logged.
    destruct w; simpl. now rewrite app_nil_r.
Qed.

End SelectSource.

(** ** Runs of [lookup] *)

Section LookupRuns.
Context `{PyLib}.
Variable env : Env.

(** [lookup], once the branch on the source has selected an endpoint *)
Lemma lookup_selected url source w wsel URL matchType filter :
  select_source source (logged [(INFO, "Lookup URLs starting with: " ++ url)] w)
  = (wsel, inr (URL, matchType, filter)) ->
  let u := URL ++ "?" ++ urlencode (params url matchType filter) in
  let w1 :=
    logged [(INFO, "Full URL: " ++ u)]
      (logged [(INFO, "Using source: " ++ source)] wsel) in
  lookup env url source w
  = match env_urlopen env u with
    | inl e => (traced [raised (CUrlopen u)] w1, inl e)
    | inr response =>
        match lookup_loop response false None (traced [returned (CUrlopen u)] w1) with
        | (w2, inl e) => (w2, inl e)
        | (w2, inr (Some k)) => (logged (resume_report (Some k)) w2, inr tt)
        | (w2, inr None) => (w2, inr tt)
        end
    end.
Proof.
  intros Hsel u w1. unfold lookup.
  unfold bind at 1. unfold logging at 1. cbv beta iota.
  unfold bind at 1. rewrite Hsel. cbv beta iota.
  unfold bind at 1. unfold logging at 1. cbv beta iota.
  unfold bind at 1. unfold logging at 1. cbv beta iota.
  fold u. fold w1.
  unfold bind at 1. unfold urlopen.
  destruct (env_urlopen env u) as [e|response].
  - reflexivity.
  - unfold bind at 1. unfold emit at 1. cbv beta iota. unfold ret at 1. cbv beta iota.
    unfold bind.
    destruct (lookup_loop response false None (traced [returned (CUrlopen u)] w1))
      as [w2 [e|[k|]]]; reflexivity.
Qed.

(** a source without a branch, or the live web: nothing is requested *)
Lemma lookup_rejected url source w e :
  (forall w', select_source source w' = (w', inl e)) ->
  lookup env url source w
  = (logged [(INFO, "Lookup URLs starting with: " ++ url)] w, inl e).
Proof.
  intros Hsel. unfold lookup.
  unfold bind at 1. unfold logging at 1. cbv beta iota.
  unfold bind at 1. now rewrite Hsel.
Qed.

(** the only call of [lookup] is the request, whatever comes back *)
Lemma lookup_trace url source w wsel URL matchType filter :
  select_source source (logged [(INFO, "Lookup URLs starting with: " ++ url)] w)
  = (wsel, inr (URL, matchType, filter)) ->
  w_trace wsel = w_trace w ->
  exists b,
    w_trace (fst (lookup env url source w))
    = (w_trace w
       ++ [(CUrlopen (URL ++ "?" ++ urlencode (params url matchType filter)), b)])%list
    /\ forall r, In r (w_log wsel) -> In r (w_log (fst (lookup env url source w))).
Proof.
  intros Hsel Htr. rewrite (lookup_selected url source w wsel _ _ _ Hsel).
  set (u := URL ++ "?" ++ urlencode (params url matchType filter)).
  destruct (env_urlopen env u) as [e|response].
  - exists false. simpl. rewrite Htr. split; [reflexivity|].
    intros r Hr. rewrite !in_app_iff. tauto.
  - exists true.
    pose proof (lookup_loop_frame response false None
      (traced [returned (CUrlopen u)]
         (logged [(INFO, "Full URL: " ++ u)]
            (logged [(INFO, "Using source: " ++ source)] wsel)))) as Hf.
    destruct (lookup_loop response false None _) as [w2 [e|[k|]]];
      simpl in Hf; destruct Hf as (Ht & Hl & _); simpl;
      rewrite ?Ht, ?Hl, Htr; (split; [reflexivity|]);
      intros r Hr; rewrite !in_app_iff; tauto.
Qed.

End LookupRuns.

Section Reports.

Lemma resume_reports_app l l' :
  resume_reports (l ++ l') = (resume_reports l ++ resume_reports l')%list.
Proof. apply List.filter_app. Qed.

Lemma resume_reports_report k : resume_reports (resume_report k) = resume_report k.
Proof.
  destruct k as [k|]; [|reflexivity].
  unfold resume_report, resume_reports. cbn [List.filter is_resume_report].
  now rewrite PyStrFacts.prefix_app.
Qed.

Lemma spec_token_agrees `{PyLib} k rest :
  record_of k <> "" ->
  spec_continuation_token (k :: rest) = continuation_token (k :: rest).
Proof.
  intros Hk. cbn [spec_continuation_token continuation_token].
  destruct (String.eqb_spec (record_of k) ""); [contradiction | reflexivity].
Qed.

End Reports.

(** C3 (amended). When the index answers with record lines, a blank line
    and whatever follows, [lookup] echoes exactly the records, returns, and
    reports as resume key the line right after the blank line, stripped,
    even when that line is empty; it reports none when no line follows the
    blank line. When the line right after the blank line is not empty,
    that is the next non-empty line of the specification. *)
Theorem lookup_records_and_resume_key `{PyLib} (env : Env) (url source : string)
    (fs : gmap string string) (recs : list (list Byte.byte))
    (blank : list Byte.byte) (tail : list (list Byte.byte)) :
  In source query_sources ->
  (forall u, env_urlopen env u = inr (recs ++ blank :: tail)%list) ->
  Forall record_line recs -> blank_line blank -> decodable_head tail ->
  let run := lookup env url source (world0 fs) in
  failure run = None
  /\ w_stdout (fst run) = List.map record_of recs
  /\ resume_reports (w_log (fst run)) = resume_report (continuation_token tail)
  /\ (tail = [] -> resume_reports (w_log (fst run)) = [])
  /\ (forall k rest, tail = k :: rest -> record_of k <> "" ->
      resume_reports (w_log (fst run))
      = resume_report (spec_continuation_token tail)).
Proof.
  intros Hin Hopen Hrecs Hblank Htail run.
  destruct (select_source_query source
              (logged [(INFO, "Lookup URLs starting with: " ++ url)] (world0 fs)) Hin)
    as (pre & URL & matchType & filter & Hsel & Hpre).
  assert (Hrun :
    failure run = None
    /\ w_stdout (fst run) = List.map record_of recs
    /\ resume_reports (w_log (fst run)) = resume_report (continuation_token tail)).
  { unfold run. rewrite (lookup_selected env url source _ _ _ _ _ Hsel).
    rewrite Hopen.
    rewrite (lookup_loop_response recs blank tail _ Hrecs Hblank Htail).
    destruct (continuation_token tail) as [k|] eqn:Hk.
    - split; [reflexivity|]. split; [reflexivity|].
      cbn [fst]. unfold logged, traced, echoed, world0. cbn [w_log].
      rewrite !resume_reports_app, Hpre.
      rewrite (resume_reports_report (Some k)). reflexivity.
    - split; [reflexivity|]. split; [reflexivity|].
      cbn [fst]. unfold logged, traced, echoed, world0. cbn [w_log].
      rewrite !resume_reports_app, Hpre. reflexivity. }
  destruct Hrun as (Hf & Hout & Hrep).
  repeat split; try assumption.
  - intros ->. exact Hrep.
  - intros k rest -> Hk. rewrite Hrep. now rewrite spec_token_agrees.
Qed.

Lemma lookup_records_and_resume_key_witness :
  let run :=
    @lookup sample_lib (calm [bline "org,example)/ 2020"; bline ""; bline "key"])
      "example.org" "ia" (world0 ∅) in
  w_stdout (fst run) = ["org,example)/ 2020"]
  /\ resume_reports (w_log (fst run)) = [(WARNING, resume_message ++ "key")].
Proof.
  destruct (@lookup_records_and_resume_key sample_lib
              (calm [bline "org,example)/ 2020"; bline ""; bline "key"])
              "example.org" "ia" ∅
              [bline "org,example)/ 2020"] (bline "") [bline "key"])
    as (_ & Hout & Hrep & _).
  - simpl. tauto.
  - intros u. reflexivity.
  - constructor; [|constructor].
    exists ("org,example)/ 2020" ++ PyStr.LF). split; [reflexivity | discriminate].
  - exists ("" ++ PyStr.LF). split; reflexivity.
  - exists ("key" ++ PyStr.LF). reflexivity.
  - split; [exact Hout | exact Hrep].
Defined.

(** C3 as stated fails: after two blank lines and a key, the
    specification takes the key for the continuation token, while [lookup]
    reports the empty second blank line. *)
Lemma lookup_resume_key_counterexample :
  let response := [bline "org,example)/ 2020"; bline ""; bline ""; bline "key"] in
  let run := @lookup sample_lib (calm response) "example.org" "ia" (world0 ∅) in
  @record_line sample_lib (bline "org,example)/ 2020")
  /\ @blank_line sample_lib (bline "")
  /\ @spec_continuation_token sample_lib [bline ""; bline "key"] = Some "key"
  /\ resume_reports (w_log (fst run)) = [(WARNING, resume_message)]
  /\ resume_reports (w_log (fst run))
     <> resume_report (@spec_continuation_token sample_lib [bline ""; bline "key"]).
Proof.
  repeat split.
  - exists ("org,example)/ 2020" ++ PyStr.LF). split; [reflexivity | discriminate].
  - exists ("" ++ PyStr.LF). split; reflexivity.
  - discriminate.
Qed.

(** C4. A lookup with the source [live] raises the [ValueError] that no
    method is defined for the live web, for every URL, with no call made:
    no request is sent and nothing is echoed. The same holds from the
    command line, where [live] is also the default source. *)
Theorem lookup_live_is_unsupported `{PyLib} (env : Env) (url : string)
    (fs : gmap string string) :
  let unsupported :=
    ValueError "No currently defined method for looking up prefix queries on the live web!" in
  let run := lookup env url "live" (world0 fs) in
  failure run = Some unsupported
  /\ w_trace (fst run) = []
  /\ w_stdout (fst run) = []
  /\ lookup_command env url (Some "live") (world0 fs) = run
  /\ lookup_command env url None (world0 fs) = run.
Proof.
  intros unsupported run. unfold run.
  assert (Hcmd : forall given,
            source_option given (world0 fs) = (world0 fs, inr "live") ->
            lookup_command env url given (world0 fs)
            = lookup env url "live" (world0 fs)).
  { intros given Hg. unfold lookup_command, bind. now rewrite Hg. }
  rewrite (Hcmd (Some "live") eq_refl), (Hcmd None eq_refl).
  rewrite (lookup_rejected env url "live" (world0 fs) unsupported select_source_live).
  split; [reflexivity|]. split; [reflexivity|]. split; [reflexivity|].
  split; reflexivity.
Qed.

(** C9. A lookup with a source that has no branch in [lookup] raises the
    [ValueError] of an unknown source, with no call made; from the command
    line such a source is refused by the choice of the option, again with
    no call made. *)
Theorem lookup_unknown_source `{PyLib} (env : Env) (url source : string)
    (fs : gmap string string) :
  ~ In source known_sources ->
  let run := lookup env url source (world0 fs) in
  failure run = Some (ValueError "Unknown source!")
  /\ w_trace (fst run) = []
  /\ w_stdout (fst run) = []
  /\ (exists msg,
        failure (lookup_command env url (Some source) (world0 fs))
        = Some (UsageError msg))
  /\ w_trace (fst (lookup_command env url (Some source) (world0 fs))) = [].
Proof.
  intros Hn run. unfold run.
  rewrite (lookup_rejected env url source (world0 fs) (ValueError "Unknown source!")
             (fun w => select_source_unknown source w Hn)).
  repeat split.
  - unfold lookup_command, source_option, bind.
    destruct (String.eqb_spec source "live") as [->|_].
    { exfalso. apply Hn. simpl. tauto. }
    destruct (String.eqb_spec source "ia") as [->|_].
    { exfalso. apply Hn. simpl. tauto. }
    eexists. reflexivity.
  - unfold lookup_command, source_option, bind.
    destruct (String.eqb_spec source "live") as [->|_].
    { exfalso. apply Hn. simpl. tauto. }
    destruct (String.eqb_spec source "ia") as [->|_].
    { exfalso. apply Hn. simpl. tauto. }
    reflexivity.
Qed.

Lemma lookup_unknown_source_witness :
  failure (@lookup sample_lib (calm []) "example.org" "archive.today" (world0 ∅))
  = Some (ValueError "Unknown source!")
  /\ w_trace (fst (@lookup sample_lib (calm []) "example.org" "archive.today" (world0 ∅)))
     = [].
Proof.
  assert (Hn : ~ In "archive.today" known_sources).
  { simpl. intros [E|[E|[E|[E|[]]]]]; discriminate E. }
  destruct (@lookup_unknown_source sample_lib (calm []) "example.org"
              "archive.today" ∅ Hn) as (Hf & Ht & _).
  split; [exact Hf | exact Ht].
Defined.

(** C8. With a Common Crawl source the request goes to the Common Crawl
    index with match type [host] and an empty filter, and the warning about
    host-level searches is logged; with [ia] the request goes to the
    Internet Archive with match type [prefix] and the status code filter
    [statuscode:[23]..]. In both cases this is the only call of the run,
    whatever the index answers. *)
Theorem lookup_match_policy `{PyLib} (env : Env) (url : string)
    (fs : gmap string string) :
  (forall source, source = "cc-2025-05" \/ source = "cc" ->
     let run := lookup env url source (world0 fs) in
     (exists b,
        w_trace (fst run)
        = [(CUrlopen (commoncrawl_index ++ "?" ++ urlencode (params url "host" "")), b)])
     /\ In commoncrawl_warning (w_log (fst run))
     /\ In ("matchType", PStr "host") (params url "host" "")
     /\ In ("filter", PStr "") (params url "host" ""))
  /\
  (let run := lookup env url "ia" (world0 fs) in
   (exists b,
      w_trace (fst run)
      = [(CUrlopen (internet_archive_index ++ "?"
                    ++ urlencode (params url "prefix" "statuscode:[23]..")), b)])
   /\ In ("matchType", PStr "prefix") (params url "prefix" "statuscode:[23]..")
   /\ In ("filter", PStr "statuscode:[23]..") (params url "prefix" "statuscode:[23]..")).
Proof.
  split.
  - intros source Hcc run.
    destruct (lookup_trace env url source (world0 fs) _ _ _ _
                (select_source_cc source _ Hcc) eq_refl) as (b & Ht & Hl).
    split; [exists b; exact Ht|].
    split; [apply Hl; simpl; tauto|].
    split; simpl; tauto.
  - intros run.
    destruct (lookup_trace env url "ia" (world0 fs) _ _ _ _
                (select_source_ia _) eq_refl) as (b & Ht & _).
    split; [exists b; exact Ht|].
    split; simpl; tauto.
Qed.

Lemma lookup_match_policy_witness :
  In commoncrawl_warning
    (w_log (fst (@lookup sample_lib (calm []) "example.org" "cc" (world0 ∅)))).
Proof.
  destruct (@lookup_match_policy sample_lib (calm []) "example.org" ∅)
    as [Hcc _].
  apply (Hcc "cc"). right. reflexivity.
Defined.

(** ** Runs of [fetch] *)

(** Runs [fetch] symbolically: one case for each outcome the world can
    choose, in the order of the calls. *)
Ltac fetch_unfold :=
  unfold fetch, makedirs, EmbeddedWaybackCli.new, EmbeddedWaybackCli.run,
    EmbeddedWaybackCli.stop, EmbeddedWaybackCli.set_proxy_default_timestamp,
    NamedTemporaryFile, multi, close, finally, bind, logging, ret, raise,
    get_files, write_file, emit;
  cbn [EmbeddedWaybackCli.parse_args String.eqb Ascii.eqb Bool.eqb].

Ltac fetch_world :=
  cbn [outside bind emit raise ret fst snd failure
       w_trace w_files w_log w_stdout w_proxy_default_timestamp
       traced logged echoed with_files with_default_timestamp world0 app].

Ltac fetch_case :=
  match goal with
  | |- context [outside _ (env_makedirs ?e ?p) _] =>
      destruct (env_makedirs e p) eqn:?
  | |- context [EmbeddedWaybackCli.sources !! ?s] =>
      destruct (EmbeddedWaybackCli.sources !! s) eqn:?
  | |- context [outside _ (env_start ?e ?a) _] =>
      destruct (env_start e a) eqn:?
  | |- context [outside _ (env_tempfile ?e) _] =>
      destruct (env_tempfile e) eqn:?
  | |- context [outside _ (env_multi ?e ?a ?f) _] =>
      destruct (env_multi e a f) eqn:?
  | |- context [outside _ (env_stop ?e) _] =>
      destruct (env_stop e) eqn:?
  end; fetch_world.

Ltac fetch_run := fetch_unfold; fetch_world; repeat fetch_case.

(** C1 (amended). In a run of [fetch] in which the proxy starts and the
    capture tool returns, [stop] is called exactly once, as the last call
    of the run, right after the capture tool. *)
Theorem fetch_stops_once_when_capture_returns `{PyLib} (env : Env)
    (url_file : list string) (source timestamp : string)
    (fs : gmap string string) :
  let t := w_trace (fst (fetch env url_file source timestamp (world0 fs))) in
  occurs is_start t = true ->
  occurs is_multi_returned t = true ->
  count is_stop t = 1
  /\ exists pre args stopped,
       t = (pre ++ [returned (CMulti args); (CStop, stopped)])%list
       /\ count is_stop pre = 0.
Proof.
  intros t. subst t. fetch_run; intros Hs Hm; try discriminate.
  - split; [reflexivity|].
    eexists [_; _; _; _; _; _; _], _, _. split; reflexivity.
  - split; [reflexivity|].
    eexists [_; _; _; _; _; _; _], _, _. split; reflexivity.
Qed.

Lemma fetch_stops_once_when_capture_returns_witness :
  count is_stop
    (w_trace (fst (@fetch sample_lib (calm []) ["https://a.example/"] "live"
                     "19950101000000" (world0 ∅)))) = 1.
Proof.
  apply (@fetch_stops_once_when_capture_returns sample_lib (calm [])
           ["https://a.example/"] "live" "19950101000000" ∅); reflexivity.
Defined.

(** C1 as stated fails: when the capture tool raises, the proxy has
    started and [stop] is never called. *)
Lemma fetch_stop_counterexample :
  let run :=
    @fetch sample_lib capture_fails ["https://a.example/"] "live"
      "19950101000000" (world0 ∅) in
  occurs is_start (w_trace (fst run)) = true
  /\ failure run = Some (Raised "shot-scraper")
  /\ count is_stop (w_trace (fst run)) = 0
  /\ count is_stop (w_trace (fst run)) <> 1.
Proof.
  split; [reflexivity|]. split; [reflexivity|]. split; [reflexivity|].
  discriminate.
Qed.

(** C2. In a run of [fetch] that calls the capture tool, whether the tool
    returns or raises, the job list written for it is still among the
    files, with its content, when [fetch] ends: it is never removed. *)
Theorem fetch_keeps_job_list `{PyLib} (env : Env)
    (url_file : list string) (source timestamp : string)
    (fs : gmap string string) :
  let run := fetch env url_file source timestamp (world0 fs) in
  occurs is_multi (w_trace (fst run)) = true ->
  w_files (fst run) !! temp_name env "shots-" ".yaml"
  = Some (yaml_dump (PList (build_shots url_file))).
Proof.
  intros run. subst run. fetch_run; intros Hm; try discriminate;
    apply lookup_insert_eq.
Qed.

Lemma fetch_keeps_job_list_witness :
  w_files (fst (@fetch sample_lib capture_fails ["https://a.example/"] "live"
                  "19950101000000" (world0 ∅)))
    !! "/tmp/shots-k3x9.yaml"
  = Some ("- job" ++ PyStr.LF).
Proof.
  apply (@fetch_keeps_job_list sample_lib capture_fails ["https://a.example/"]
           "live" "19950101000000" ∅); reflexivity.
Defined.

(** the job list is left behind also when every call returns *)
Lemma fetch_keeps_job_list_on_success :
  let run :=
    @fetch sample_lib (calm []) ["https://a.example/"] "live"
      "19950101000000" (world0 ∅) in
  failure run = None
  /\ w_files (fst run) !! "/tmp/shots-k3x9.yaml" = Some ("- job" ++ PyStr.LF).
Proof. split; reflexivity. Qed.

(** C5 as stated fails: a timestamp that is not 14 digits is not refused;
    the proxy is started and [fetch] returns. *)
Lemma fetch_timestamp_counterexample :
  let run :=
    @fetch_command sample_lib (calm []) ["https://a.example/"] (Some "ia")
      (Some "yesterday") (world0 ∅) in
  timestamp14 "yesterday" = false
  /\ occurs is_start (w_trace (fst run)) = true
  /\ failure run = None
  /\ w_proxy_default_timestamp (fst run) = Some "yesterday".
Proof. repeat split. Qed.

(** C5 (amended). [fetch] does not check its timestamp: with any string,
    14 digits or not, when the calls it makes return and the source is one
    the embedded wayback knows, the proxy is started, the string becomes
    the default timestamp of the proxy as it is, and [fetch] returns. *)
Theorem fetch_takes_any_timestamp `{PyLib} (env : Env)
    (url_file : list string) (source timestamp : string)
    (fs : gmap string string) :
  all_return env ->
  is_Some (EmbeddedWaybackCli.sources !! source) ->
  let run := fetch env url_file source timestamp (world0 fs) in
  failure run = None
  /\ occurs is_start (w_trace (fst run)) = true
  /\ w_proxy_default_timestamp (fst run) = Some timestamp
  /\ In (returned (CSetDefaultTimestamp timestamp)) (w_trace (fst run)).
Proof.
  intros (Hmk & Hst & Htmp & Hmu & Hstop) [s Hs] run. subst run.
  fetch_unfold. fetch_world.
  rewrite !Hmk. fetch_world. rewrite Hs. fetch_world.
  rewrite Hst. fetch_world. rewrite Htmp. fetch_world.
  rewrite Hmu. fetch_world. rewrite Hstop. fetch_world.
  split; [reflexivity|]. split; [reflexivity|]. split; [reflexivity|].
  simpl. tauto.
Qed.

Lemma fetch_takes_any_timestamp_witness :
  w_proxy_default_timestamp
    (fst (@fetch sample_lib (calm []) ["https://a.example/"] "ia"
            "yesterday" (world0 ∅)))
  = Some "yesterday".
Proof.
  apply (@fetch_takes_any_timestamp sample_lib (calm []) ["https://a.example/"]
           "ia" "yesterday" ∅).
  - repeat split.
  - exists "memento+https://web.archive.org/web/". reflexivity.
Defined.

(** the order of the start, the assignment and the capture tool *)
Lemma fetch_timestamp_order `{PyLib} (env : Env)
    (url_file : list string) (source timestamp : string)
    (fs : gmap string string) :
  let run := fetch env url_file source timestamp (world0 fs) in
  let t := w_trace (fst run) in
  occurs is_start t = true ->
  w_proxy_default_timestamp (fst run) = Some timestamp
  /\ count is_set_timestamp t = 1
  /\ exists pre cfg post,
       t = (pre ++ returned (CStart ["--source"; source] cfg)
                :: returned (CSleep 3)
                :: returned (CSetDefaultTimestamp timestamp) :: post)%list
       /\ occurs is_multi pre = false
       /\ occurs is_set_timestamp pre = false
       /\ occurs is_start post = false.
Proof.
  intros run t. subst t run. fetch_run; intros Hs; try discriminate;
    (split; [reflexivity|]); (split; [reflexivity|]);
    eexists [_; _; _], _, _; (split; [reflexivity|]);
    repeat split.
Qed.

(** C10. Without [--timestamp] the command runs [fetch] with
    [19950101000000], which becomes the default timestamp of the proxy in
    a run in which the proxy starts. In every run in which the proxy
    starts, the default timestamp of the proxy is assigned the given
    timestamp exactly once, after the start and before any call of the
    capture tool. *)
Theorem fetch_pins_timestamp `{PyLib} (env : Env)
    (url_file : list string) (source timestamp : string)
    (given : option string) (fs : gmap string string) :
  (fetch_command env url_file given None (world0 fs)
   = fetch_command env url_file given (Some "19950101000000") (world0 fs))
  /\ (let run := fetch_command env url_file given None (world0 fs) in
      occurs is_start (w_trace (fst run)) = true ->
      w_proxy_default_timestamp (fst run) = Some "19950101000000")
  /\ (let run := fetch env url_file source timestamp (world0 fs) in
      let t := w_trace (fst run) in
      occurs is_start t = true ->
      w_proxy_default_timestamp (fst run) = Some timestamp
      /\ count is_set_timestamp t = 1
      /\ exists pre cfg post,
           t = (pre ++ returned (CStart ["--source"; source] cfg)
                    :: returned (CSleep 3)
                    :: returned (CSetDefaultTimestamp timestamp) :: post)%list
           /\ occurs is_multi pre = false
           /\ occurs is_set_timestamp pre = false
           /\ occurs is_start post = false).
Proof.
  split; [reflexivity|]. split.
  - intros run. subst run. unfold fetch_command, bind.
    destruct (source_option given (world0 fs)) as [w [e|s]] eqn:Hopt.
    + destruct given as [s|]; unfold source_option in Hopt.
      * destruct (String.eqb s "live" || String.eqb s "ia");
          inversion Hopt; subst; discriminate.
      * discriminate.
    + assert (w = world0 fs) as ->.
      { destruct given as [s'|]; unfold source_option in Hopt.
        - destruct (String.eqb s' "live" || String.eqb s' "ia");
            inversion Hopt; reflexivity.
        - inversion Hopt; reflexivity. }
      unfold timestamp_option, ret. intros Hs.
      now apply (fetch_timestamp_order env url_file s "19950101000000" fs).
  - apply fetch_timestamp_order.
Qed.

Lemma fetch_pins_timestamp_witness :
  w_proxy_default_timestamp
    (fst (@fetch_command sample_lib (calm []) ["https://a.example/"] None None
            (world0 ∅)))
  = Some "19950101000000"
  /\ count is_set_timestamp
       (w_trace (fst (@fetch sample_lib (calm []) ["https://a.example/"] "ia"
                        "20200101120000" (world0 ∅)))) = 1.
Proof.
  pose proof (@fetch_pins_timestamp sample_lib (calm []) ["https://a.example/"]
                "ia" "20200101120000" None ∅) as (_ & Hdefault & Hrun).
  split.
  - apply Hdefault. reflexivity.
  - apply Hrun. reflexivity.
Defined.

(** * Further properties of the commands *)

(** ** What [strip] leaves *)

Module StripFacts.
Import PyStr.

Lemma lstrip_head s c r : lstrip s = String c r -> isspace c = false.
Proof.
  induction s as [|a s IH]; simpl; [discriminate|].
  destruct (isspace a) eqn:Ha; [exact IH|].
  intros E. inversion E; subst. exact Ha.
Qed.

Lemma rstrip_cons c s :
  rstrip (String c s)
  = match rstrip s with
    | EmptyString => if isspace c then EmptyString else String c EmptyString
    | r => String c r
    end.
Proof. reflexivity. Qed.

Lemma rstrip_idempotent s : rstrip (rstrip s) = rstrip s.
Proof.
  induction s as [|c s IH]; [reflexivity|].
  rewrite rstrip_cons. destruct (rstrip s) as [|d r] eqn:Hr.
  - destruct (isspace c) eqn:Hc; [reflexivity|].
    rewrite rstrip_cons. cbn [rstrip]. now rewrite Hc.
  - rewrite rstrip_cons, IH. reflexivity.
Qed.

Lemma rstrip_last s :
  match last_char (rstrip s) with
  | Some d => isspace d = false
  | None => rstrip s = EmptyString
  end.
Proof.
  induction s as [|c s IH]; [reflexivity|].
  rewrite rstrip_cons. destruct (rstrip s) as [|d r] eqn:Hr.
  - destruct (isspace c) eqn:Hc; [reflexivity|]. simpl. exact Hc.
  - change (last_char (String c (String d r))) with (last_char (String d r)).
    destruct (last_char (String d r)); [exact IH | discriminate IH].
Qed.

Lemma rstrip_keeps_head s :
  rstrip s = EmptyString \/ head_char (rstrip s) = head_char s.
Proof.
  destruct s as [|c s]; [now left|].
  rewrite rstrip_cons. destruct (rstrip s).
  - destruct (isspace c); [now left | now right].
  - now right.
Qed.

Lemma lstrip_nonspace_head c s : isspace c = false -> lstrip (String c s) = String c s.
Proof. intros Hc. simpl. now rewrite Hc. Qed.

(** [strip] gives the empty string or a string with no white space at
    either end *)
Lemma strip_trimmed s : strip s = EmptyString \/ trimmed (strip s).
Proof.
  unfold strip. destruct (rstrip (lstrip s)) as [|c r] eqn:Hr; [now left|].
  right. split.
  - exists c. split; [reflexivity|].
    destruct (rstrip_keeps_head (lstrip s)) as [E|E]; [congruence|].
    rewrite Hr in E. destruct (lstrip s) as [|a l] eqn:Hl; [discriminate|].
    simpl in E. inversion E; subst. now apply (lstrip_head s a l).
  - pose proof (rstrip_last (lstrip s)) as Hlast. rewrite Hr in Hlast.
    destruct (last_char (String c r)) as [d|]; [|discriminate].
    now exists d.
Qed.

Lemma strip_idempotent s : strip (strip s) = strip s.
Proof.
  unfold strip. destruct (rstrip (lstrip s)) as [|c r] eqn:Hr; [reflexivity|].
  assert (Hc : isspace c = false).
  { destruct (rstrip_keeps_head (lstrip s)) as [E|E]; [congruence|].
    rewrite Hr in E. destruct (lstrip s) as [|a l] eqn:Hl; [discriminate|].
    simpl in E. inversion E; subst. now apply (lstrip_head s a l). }
  rewrite (lstrip_nonspace_head c r Hc), <- Hr. apply rstrip_idempotent.
Qed.

End StripFacts.

(** ** The capture batch: further properties *)

(** X1. Every job of the batch comes from a line of the input: its URL is
    that line stripped, it is not empty, has no white space at either end
    and does not begin with [#]. *)
Theorem batch_jobs_are_clean `{PyLib} (url_file : list string) (job : pyval) :
  In job (build_shots url_file) ->
  exists line,
    In line url_file
    /\ job = shot (PyStr.strip line)
    /\ shot_url job = Some (PyStr.strip line)
    /\ trimmed (PyStr.strip line)
    /\ PyStr.startswith (PyStr.strip line) "#" = false.
Proof.
  rewrite build_shots_spec. intros Hin.
  apply in_map_iff in Hin as (u & <- & Hu).
  apply List.filter_In in Hu as [Hu Hw].
  apply in_map_iff in Hu as (line & <- & Hline).
  exists line. split; [exact Hline|]. split; [reflexivity|].
  split; [reflexivity|].
  destruct (wanted_inv _ Hw) as [Hne Hc]. split; [|exact Hc].
  destruct (StripFacts.strip_trimmed line) as [E|Ht]; [contradiction | exact Ht].
Qed.

Lemma batch_jobs_are_clean_witness :
  exists line,
    In line ["  https://a.example/ "; "# note"]
    /\ trimmed (PyStr.strip line).
Proof.
  destruct (@batch_jobs_are_clean sample_lib ["  https://a.example/ "; "# note"]
              (@shot sample_lib "https://a.example/"))
    as (line & Hin & _ & _ & Ht & _).
  - left. reflexivity.
  - exists line. split; assumption.
Defined.

(** X2. The batch of two inputs put one after the other is the batch of
    the first followed by the batch of the second: a line is judged on its
    own, and a URL that occurs twice gets two jobs. *)
Theorem batch_of_concatenation `{PyLib} (first second : list string) :
  build_shots (first ++ second) = (build_shots first ++ build_shots second)%list.
Proof.
  rewrite !build_shots_spec, List.map_app, List.filter_app, List.map_app.
  reflexivity.
Qed.

(** X3. The batch has at most one job for each line, and it is empty
    exactly when every line is blank or a comment after stripping. *)
Theorem batch_size `{PyLib} (url_file : list string) :
  length (build_shots url_file) <= length url_file
  /\ (build_shots url_file = []
      <-> Forall (fun line => wanted (PyStr.strip line) = false) url_file).
Proof.
  rewrite build_shots_spec. split.
  - rewrite List.length_map.
    etransitivity; [apply List.filter_length_le|].
    now rewrite List.length_map.
  - induction url_file as [|line rest IH]; [split; auto|].
    cbn [List.map List.filter]. destruct (wanted (PyStr.strip line)) eqn:Hw.
    + split; [discriminate|]. intros Hall. inversion Hall; subst. congruence.
    + split.
      * intros E. constructor; [exact Hw | now apply IH].
      * intros Hall. inversion Hall; subst. now apply IH.
Qed.

(** ** The configuration built by [load]: further properties *)

(** X4. The configuration does not tell the archival sources apart: with
    the same timestamp, any two sources other than [live] give the same
    configuration, so [ia_cdx] is served by the memento endpoint of [ia]
    and not by its own CDX endpoint. *)
Theorem load_same_for_archival_sources (r r' : EmbeddedWaybackCli.Args) :
  EmbeddedWaybackCli.r_source r <> "live" ->
  EmbeddedWaybackCli.r_source r' <> "live" ->
  EmbeddedWaybackCli.r_timestamp r = EmbeddedWaybackCli.r_timestamp r' ->
  EmbeddedWaybackCli.load r = EmbeddedWaybackCli.load r'
  /\ forall remote local,
       EmbeddedWaybackCli.sequence (EmbeddedWaybackCli.load r)
         = Some (PList [local; remote]) ->
       getitem remote "index" <> (PStr <$> EmbeddedWaybackCli.sources !! "ia_cdx").
Proof.
  intros Hr Hr' Ht. rewrite (load_archive r Hr), (load_archive r' Hr').
  split.
  - unfold EmbeddedWaybackCli.extra_config0. now rewrite Ht.
  - intros remote local. rewrite sequence_set_sequence. intros E.
    inversion E; subst. discriminate.
Qed.

Lemma load_same_for_archival_sources_witness :
  EmbeddedWaybackCli.load (fetch_args "ia")
  = EmbeddedWaybackCli.load (fetch_args "ia_cdx").
Proof.
  apply (load_same_for_archival_sources (fetch_args "ia") (fetch_args "ia_cdx"));
    [discriminate | discriminate | reflexivity].
Defined.

(** X5. Whatever the source, the recorder takes its content from the
    collection [stack] and filters on the tier named [source], which is
    the last tier of the stack and the only one of that name; the proxy
    serves the collection [mementos] with recording on, and a tier of that
    name is in the stack exactly for the sources other than [live]. *)
Theorem load_recorder_matches_stack (r : EmbeddedWaybackCli.Args) :
  exists seq recorder proxy filter coll,
    EmbeddedWaybackCli.sequence (EmbeddedWaybackCli.load r) = Some (PList seq)
    /\ getitem (EmbeddedWaybackCli.load r) "recorder" = Some recorder
    /\ getitem (EmbeddedWaybackCli.load r) "proxy" = Some proxy
    /\ getitem recorder "source_coll" = Some (PStr "stack")
    /\ getitem recorder "source_filter" = Some (PStr filter)
    /\ List.filter (named filter) seq = [List.last seq (PStr "")]
    /\ getitem proxy "coll" = Some (PStr coll)
    /\ getitem proxy "recording" = Some (PBool true)
    /\ (existsb (named coll) seq = true
        <-> EmbeddedWaybackCli.r_source r <> "live").
Proof.
  destruct (String.eqb_spec (EmbeddedWaybackCli.r_source r) "live") as [E|E].
  - rewrite (load_live r E).
    exists EmbeddedWaybackCli.live_sequence.
    do 2 eexists. exists "source", "mementos".
    split; [reflexivity|]. split; [reflexivity|]. split; [reflexivity|].
    split; [reflexivity|]. split; [reflexivity|]. split; [reflexivity|].
    split; [reflexivity|]. split; [reflexivity|].
    split; [discriminate | contradiction].
  - rewrite (load_archive r E).
    exists EmbeddedWaybackCli.archive_sequence.
    do 2 eexists. exists "source", "mementos".
    split; [reflexivity|]. split; [reflexivity|]. split; [reflexivity|].
    split; [reflexivity|]. split; [reflexivity|]. split; [reflexivity|].
    split; [reflexivity|]. split; [reflexivity|].
    split; [intros _; exact E | reflexivity].
Qed.

(** X6. Each source the parser accepts has a collection of its name in
    the configuration, on the index the table [sources] gives for it; the
    default timestamp of the proxy section is the parsed timestamp; and
    outside [collections] the configuration is as first built. *)
Theorem load_collections_match_sources (r : EmbeddedWaybackCli.Args) :
  (forall name index,
     EmbeddedWaybackCli.sources !! name = Some index ->
     exists collections entry,
       getitem (EmbeddedWaybackCli.load r) "collections" = Some collections
       /\ getitem collections name = Some entry
       /\ (entry = PStr index \/ entry = dict [("index", PStr index)]))
  /\ config_default_timestamp (EmbeddedWaybackCli.load r)
     = Some (PStr (EmbeddedWaybackCli.r_timestamp r))
  /\ (forall key, key <> "collections" ->
      getitem (EmbeddedWaybackCli.load r) key
      = getitem (EmbeddedWaybackCli.extra_config0 r) key).
Proof.
  split; [|split].
  - intros name index Hs.
    apply elem_of_list_to_map_2 in Hs.
    assert (Hcases :
      (name, index) = ("live", "$live")
      \/ (name, index) = ("ia", "memento+https://web.archive.org/web/")
      \/ (name, index) = ("ia_cdx", "cdx+https://web.archive.org/cdx /web")).
    { apply list_elem_of_In in Hs. simpl in Hs.
      destruct Hs as [<-|[<-|[<-|[]]]]; tauto. }
    unfold EmbeddedWaybackCli.load.
    destruct (String.eqb (EmbeddedWaybackCli.r_source r) "live");
      destruct Hcases as [E|[E|E]]; inversion E; subst;
      do 2 eexists; (split; [reflexivity|]); (split; [reflexivity|]); tauto.
  - unfold EmbeddedWaybackCli.load.
    destruct (String.eqb (EmbeddedWaybackCli.r_source r) "live"); reflexivity.
  - intros key Hk. unfold EmbeddedWaybackCli.load, EmbeddedWaybackCli.set_sequence.
    destruct (String.eqb (EmbeddedWaybackCli.r_source r) "live");
      unfold under, EmbeddedWaybackCli.extra_config0, dict, getitem;
      now rewrite lookup_alter_ne.
Qed.

Lemma load_collections_match_sources_witness :
  exists collections entry,
    getitem (EmbeddedWaybackCli.load (fetch_args "ia")) "collections"
    = Some collections
    /\ getitem collections "ia_cdx" = Some entry.
Proof.
  destruct (proj1 (load_collections_match_sources (fetch_args "ia"))
              "ia_cdx" "cdx+https://web.archive.org/cdx /web" eq_refl)
    as (collections & entry & Hc & He & _).
  exists collections, entry. split; assumption.
Defined.

(** ** Runs of [lookup]: further properties *)

Section LookupMore.
Context `{PyLib}.
Variable env : Env.

(** the branch on the source either selects an endpoint, logging at most
    the Common Crawl warning, or raises without a trace *)
Lemma select_source_cases source w :
  (In source query_sources
   /\ exists pre URL matchType filter,
        select_source source w = (logged pre w, inr (URL, matchType, filter))
        /\ resume_reports pre = [])
  \/ (~ In source query_sources
      /\ exists e, forall w', select_source source w' = (w', inl e)).
Proof.
  destruct (in_dec String.string_dec source query_sources) as [Hin|Hn].
  - left. split; [exact Hin|]. now apply select_source_query.
  - right. split; [exact Hn|].
    destruct (String.string_dec source "live") as [->|Hl].
    + eexists. intros w'. apply select_source_live.
    + eexists. intros w'. apply select_source_unknown.
      unfold known_sources. unfold query_sources in Hn. simpl in *.
      intuition congruence.
Qed.

(** a run of [lookup] on a source that is queried, from the run of its
    loop over the response *)
Lemma lookup_of_loop url source fs response out r :
  In source query_sources ->
  (forall u, env_urlopen env u = inr response) ->
  (forall w, lookup_loop response false None w = (echoed out w, r)) ->
  let run := lookup env url source (world0 fs) in
  w_stdout (fst run) = out
  /\ failure run = match r with inl e => Some e | inr _ => None end
  /\ resume_reports (w_log (fst run))
     = match r with inl _ => [] | inr k => resume_report k end
  /\ count is_urlopen (w_trace (fst run)) = 1.
Proof.
  intros Hin Hopen Hloop run.
  destruct (select_source_query source
              (logged [(INFO, "Lookup URLs starting with: " ++ url)] (world0 fs)) Hin)
    as (pre & URL & matchType & filter & Hsel & Hpre).
  unfold run. rewrite (lookup_selected env url source _ _ _ _ _ Hsel).
  rewrite Hopen, Hloop.
  destruct r as [e|[k|]]; (split; [reflexivity|]); (split; [reflexivity|]);
    (split; [|reflexivity]);
    cbn [fst]; unfold logged, traced, echoed, world0; cbn [w_log];
    rewrite ?resume_reports_app, Hpre; [reflexivity| |reflexivity].
  rewrite (resume_reports_report (Some k)). reflexivity.
Qed.

End LookupMore.

(** X7. When the request fails, [lookup] raises what [urlopen] raised:
    nothing is echoed, no resume key is reported, and the failed request
    is the only call, so the request is not tried again. *)
Theorem lookup_network_failure `{PyLib} (env : Env) (url source : string)
    (fs : gmap string string) (e : exn) :
  In source query_sources ->
  (forall u, env_urlopen env u = inl e) ->
  let run := lookup env url source (world0 fs) in
  failure run = Some e
  /\ w_stdout (fst run) = []
  /\ resume_reports (w_log (fst run)) = []
  /\ exists u, w_trace (fst run) = [raised (CUrlopen u)].
Proof.
  intros Hin Hopen run.
  destruct (select_source_query source
              (logged [(INFO, "Lookup URLs starting with: " ++ url)] (world0 fs)) Hin)
    as (pre & URL & matchType & filter & Hsel & Hpre).
  unfold run. rewrite (lookup_selected env url source _ _ _ _ _ Hsel), Hopen.
  split; [reflexivity|]. split; [reflexivity|]. split.
  - cbn [fst]. unfold logged, traced, world0. cbn [w_log].
    rewrite !resume_reports_app, Hpre. reflexivity.
  - eexists. reflexivity.
Qed.

Lemma lookup_network_failure_witness :
  failure (@lookup sample_lib offline "example.org" "ia" (world0 ∅))
  = Some (Raised "URLError").
Proof.
  apply (@lookup_network_failure sample_lib offline "example.org" "ia" ∅
           (Raised "URLError")).
  - simpl. tauto.
  - intros u. reflexivity.
Defined.

(** X8. A response with no blank line, the empty response among them:
    every line is echoed as a record, [lookup] returns and reports no
    resume key. *)
Theorem lookup_without_blank_line `{PyLib} (env : Env) (url source : string)
    (fs : gmap string string) (recs : list (list Byte.byte)) :
  In source query_sources ->
  (forall u, env_urlopen env u = inr recs) ->
  Forall record_line recs ->
  let run := lookup env url source (world0 fs) in
  failure run = None
  /\ w_stdout (fst run) = List.map record_of recs
  /\ resume_reports (w_log (fst run)) = [].
Proof.
  intros Hin Hopen Hrecs run.
  destruct (lookup_of_loop env url source fs recs (List.map record_of recs)
              (inr None) Hin Hopen) as (Hout & Hf & Hrep & _).
  - intros w. rewrite <- (app_nil_r recs) at 1.
    now rewrite (lookup_loop_records recs [] w Hrecs).
  - repeat split; assumption.
Qed.

Lemma lookup_without_blank_line_witness :
  w_stdout (fst (@lookup sample_lib (calm [bline "a 2020"; bline "b 2021"])
                   "example.org" "ia" (world0 ∅)))
  = ["a 2020"; "b 2021"].
Proof.
  apply (@lookup_without_blank_line sample_lib
           (calm [bline "a 2020"; bline "b 2021"]) "example.org" "ia" ∅
           [bline "a 2020"; bline "b 2021"]).
  - simpl. tauto.
  - intros u. reflexivity.
  - repeat constructor.
    + exists ("a 2020" ++ PyStr.LF). split; [reflexivity | discriminate].
    + exists ("b 2021" ++ PyStr.LF). split; [reflexivity | discriminate].
Defined.

Section LookupLoopMore.
Context `{PyLib}.

(** a line that does not decode stops the loop where it stands *)
Lemma lookup_loop_undecodable line rest ended w :
  decode_utf8 line = None ->
  lookup_loop (line :: rest) ended None w = (w, inl UnicodeDecodeError).
Proof.
  intros Hd. cbn [lookup_loop]. destruct ended; cbn [negb];
    unfold bind, decode; now rewrite Hd.
Qed.

(** every echoed line is a stripped, non-empty text *)
Lemma lookup_loop_echoes_trimmed response ended k w :
  Forall trimmed (w_stdout w) ->
  Forall trimmed (w_stdout (fst (lookup_loop response ended k w))).
Proof.
  revert ended k w.
  induction response as [|line rest IH]; intros ended k w Hw; [exact Hw|].
  cbn [lookup_loop]. destruct ended; cbn [negb].
  - destruct k as [k|]; [now apply IH|].
    unfold bind, decode. destruct (decode_utf8 line); [now apply IH | exact Hw].
  - unfold bind, decode. destruct (decode_utf8 line) as [s|]; [|exact Hw].
    cbn [ret]. destruct (String.eqb_spec (PyStr.strip s) "") as [E|E];
      [now apply IH|].
    unfold echo. apply IH. cbn [echoed w_stdout].
    apply Forall_app. split; [exact Hw|]. constructor; [|constructor].
    destruct (StripFacts.strip_trimmed s) as [E'|Ht]; [contradiction | exact Ht].
Qed.

(** the loop leaves the default timestamp of the proxy alone *)
Lemma lookup_loop_timestamp response ended k w :
  w_proxy_default_timestamp (fst (lookup_loop response ended k w))
  = w_proxy_default_timestamp w.
Proof.
  revert ended k w.
  induction response as [|line rest IH]; intros ended k w; [reflexivity|].
  cbn [lookup_loop]. destruct ended; cbn [negb].
  - destruct k as [k|]; [apply IH|].
    unfold bind, decode. destruct (decode_utf8 line); [apply IH | reflexivity].
  - unfold bind, decode. destruct (decode_utf8 line) as [s|]; [|reflexivity].
    cbn [ret]. destruct (String.eqb (PyStr.strip s) ""); [apply IH|].
    unfold echo. exact (IH false k (echoed [PyStr.strip s] w)).
Qed.

End LookupLoopMore.

(** X9. A line that does not decode, among the records or right after
    the blank line, makes [lookup] raise [UnicodeDecodeError]: the records
    before it stay echoed and no resume key is reported. *)
Theorem lookup_undecodable_line `{PyLib} (env : Env) (url source : string)
    (fs : gmap string string) (recs mid : list (list Byte.byte))
    (bad : list Byte.byte) (rest : list (list Byte.byte)) :
  In source query_sources ->
  (forall u, env_urlopen env u = inr (recs ++ mid ++ bad :: rest)%list) ->
  Forall record_line recs ->
  mid = [] \/ (exists blank, mid = [blank] /\ blank_line blank) ->
  decode_utf8 bad = None ->
  let run := lookup env url source (world0 fs) in
  failure run = Some UnicodeDecodeError
  /\ w_stdout (fst run) = List.map record_of recs
  /\ resume_reports (w_log (fst run)) = [].
Proof.
  intros Hin Hopen Hrecs Hmid Hbad run.
  destruct (lookup_of_loop env url source fs _ (List.map record_of recs)
              (inl UnicodeDecodeError) Hin Hopen) as (Hout & Hf & Hrep & _).
  - intros w. rewrite (lookup_loop_records recs _ w Hrecs).
    destruct Hmid as [-> | (blank & -> & Hblank)].
    + now apply lookup_loop_undecodable.
    + cbn [app]. rewrite (lookup_loop_blank blank _ _ Hblank).
      now apply lookup_loop_undecodable.
  - repeat split; assumption.
Qed.

Lemma lookup_undecodable_line_witness :
  let run :=
    @lookup sample_lib (calm [bline "a 2020"; bline ""; undecodable])
      "example.org" "ia" (world0 ∅) in
  failure run = Some UnicodeDecodeError /\ w_stdout (fst run) = ["a 2020"].
Proof.
  destruct (@lookup_undecodable_line sample_lib
              (calm [bline "a 2020"; bline ""; undecodable]) "example.org" "ia" ∅
              [bline "a 2020"] [bline ""] undecodable [])
    as (Hf & Hout & _).
  - simpl. tauto.
  - intros u. reflexivity.
  - repeat constructor.
    exists ("a 2020" ++ PyStr.LF). split; [reflexivity | discriminate].
  - right. exists (bline ""). split; [reflexivity|].
    exists ("" ++ PyStr.LF). split; reflexivity.
  - reflexivity.
  - split; assumption.
Defined.

(** X10. What follows the line after the blank line is not read: the run
    is the same as on the response cut after that line, also when the
    lines cut off do not decode. *)
Theorem lookup_ignores_lines_after_key `{PyLib} (env env' : Env)
    (url source : string) (fs : gmap string string)
    (recs : list (list Byte.byte)) (blank key : list Byte.byte)
    (rest : list (list Byte.byte)) :
  (forall u, env_urlopen env u = inr (recs ++ blank :: key :: rest)%list) ->
  (forall u, env_urlopen env' u = inr (recs ++ [blank; key])%list) ->
  Forall record_line recs -> blank_line blank ->
  (exists s, decode_utf8 key = Some s) ->
  lookup env url source (world0 fs) = lookup env' url source (world0 fs).
Proof.
  intros Hopen Hopen' Hrecs Hblank Hkey.
  destruct (select_source_cases source
              (logged [(INFO, "Lookup URLs starting with: " ++ url)] (world0 fs)))
    as [(_ & pre & URL & matchType & filter & Hsel & _) | (_ & e & Hsel)].
  - rewrite (lookup_selected env url source _ _ _ _ _ Hsel).
    rewrite (lookup_selected env' url source _ _ _ _ _ Hsel).
    rewrite Hopen, Hopen'.
    rewrite (lookup_loop_response recs blank (key :: rest) _ Hrecs Hblank Hkey).
    rewrite (lookup_loop_response recs blank [key] _ Hrecs Hblank Hkey).
    reflexivity.
  - now rewrite (lookup_rejected env url source _ e Hsel),
                (lookup_rejected env' url source _ e Hsel).
Qed.

Lemma lookup_ignores_lines_after_key_witness :
  @lookup sample_lib (calm [bline "a 2020"; bline ""; bline "key"; undecodable])
    "example.org" "ia" (world0 ∅)
  = @lookup sample_lib (calm [bline "a 2020"; bline ""; bline "key"])
      "example.org" "ia" (world0 ∅).
Proof.
  apply (@lookup_ignores_lines_after_key sample_lib _ _ "example.org" "ia" ∅
           [bline "a 2020"] (bline "") (bline "key") [undecodable]).
  - intros u. reflexivity.
  - intros u. reflexivity.
  - repeat constructor.
    exists ("a 2020" ++ PyStr.LF). split; [reflexivity | discriminate].
  - exists ("" ++ PyStr.LF). split; reflexivity.
  - exists ("key" ++ PyStr.LF). reflexivity.
Defined.

(** X11. Whatever the index answers and whatever the source, each line
    [lookup] echoes is non-empty and has no white space at either end, and
    [lookup] leaves the files and the proxy alone; it makes no call or the
    one request, and reports at most one resume key. *)
Theorem lookup_footprint `{PyLib} (env : Env) (url source : string)
    (fs : gmap string string) :
  let run := lookup env url source (world0 fs) in
  Forall trimmed (w_stdout (fst run))
  /\ w_files (fst run) = fs
  /\ w_proxy_default_timestamp (fst run) = None
  /\ (w_trace (fst run) = []
      \/ exists u b, w_trace (fst run) = [(CUrlopen u, b)])
  /\ length (resume_reports (w_log (fst run))) <= 1.
Proof.
  intros run. unfold run.
  destruct (select_source_cases source
              (logged [(INFO, "Lookup URLs starting with: " ++ url)] (world0 fs)))
    as [(_ & pre & URL & matchType & filter & Hsel & Hpre) | (_ & e & Hsel)].
  - rewrite (lookup_selected env url source _ _ _ _ _ Hsel).
    set (u := URL ++ "?" ++ urlencode (params url matchType filter)).
    destruct (env_urlopen env u) as [e|response].
    + cbn [fst]. split; [constructor|]. split; [reflexivity|].
      split; [reflexivity|]. split; [right; now exists u, false|].
      unfold logged, traced, world0. cbn [w_log].
      rewrite !resume_reports_app, Hpre. simpl. lia.
    + set (w1 := traced [returned (CUrlopen u)] _).
      pose proof (lookup_loop_frame response false None w1) as (Ht & Hl & Hfiles).
      pose proof (lookup_loop_timestamp response false None w1) as Hts.
      pose proof (lookup_loop_echoes_trimmed response false None w1
                    (Forall_nil_2 _)) as Hout.
      assert (Hlog : resume_reports (w_log w1) = []).
      { unfold w1, logged, traced, world0. cbn [w_log].
        now rewrite !resume_reports_app, Hpre. }
      destruct (lookup_loop response false None w1) as [w2 [e|[k|]]];
        cbn [fst] in *; cbn [logged w_stdout w_files w_trace w_log
                             w_proxy_default_timestamp];
        (split; [exact Hout|]); (split; [exact Hfiles|]);
        (split; [exact Hts|]);
        (split; [right; exists u, true; exact Ht|]);
        rewrite ?resume_reports_app, ?resume_reports_report, ?Hl, ?Hlog;
        simpl; lia.
  - rewrite (lookup_rejected env url source _ e Hsel). cbn [fst].
    split; [constructor|]. split; [reflexivity|]. split; [reflexivity|].
    split; [now left|]. simpl. lia.
Qed.

(** X12. From the command line a lookup queries nothing but the Internet
    Archive: a request, if one is sent, goes to its CDX endpoint with the
    match type [prefix] and the status code filter, and the Common Crawl
    warning is never logged. Without [-s ia] the command fails before any
    call: the default source is [live], and [cc] is not among the choices. *)
Theorem lookup_command_queries_only_ia `{PyLib} (env : Env) (url : string)
    (given : option string) (fs : gmap string string) :
  let run := lookup_command env url given (world0 fs) in
  (forall e, In e (w_trace (fst run)) ->
     exists b,
       e = (CUrlopen (internet_archive_index ++ "?"
                      ++ urlencode (params url "prefix" "statuscode:[23]..")), b))
  /\ ~ In commoncrawl_warning (w_log (fst run))
  /\ (given <> Some "ia" -> failure run <> None /\ w_trace (fst run) = []).
Proof.
  intros run. unfold run, lookup_command, source_option, bind.
  destruct given as [s|].
  - destruct (String.eqb_spec s "live") as [->|Hl]; cbn [orb].
    + cbn [ret]. rewrite (lookup_rejected env url "live" _ _ select_source_live).
      cbn [fst]. split; [intros e []|]. split.
      * simpl. intros [E|[]]. discriminate E.
      * intros _. split; [discriminate | reflexivity].
    + destruct (String.eqb_spec s "ia") as [->|Hi].
      * cbn [ret].
        rewrite (lookup_selected env url "ia" _ _ _ _ _ (select_source_ia _)).
        set (u := internet_archive_index ++ "?"
                  ++ urlencode (params url "prefix" "statuscode:[23]..")).
        destruct (env_urlopen env u) as [e|response].
        -- cbn [fst]. split.
           { simpl. intros e0 [<-|[]]. now exists false. }
           split; [|intros Hn; now contradiction Hn].
           simpl. intros [E|[E|[E|[]]]]; discriminate E.
        -- set (w1 := traced [returned (CUrlopen u)] _).
           pose proof (lookup_loop_frame response false None w1) as (Ht & Hlog & _).
           destruct (lookup_loop response false None w1) as [w2 [e|[k|]]];
             cbn [fst] in *; cbn [logged w_trace w_log];
             rewrite ?Ht, ?Hlog; split;
             try (simpl; intros e0 [<-|[]]; now exists true);
             (split; [|intros Hn; now contradiction Hn]);
             simpl; intros Hin; repeat destruct Hin as [Hin|Hin];
             try discriminate Hin; try contradiction.
      * cbn [raise fst]. split; [intros e []|]. split; [intros []|].
        intros _. split; [discriminate | reflexivity].
  - cbn [ret]. rewrite (lookup_rejected env url "live" _ _ select_source_live).
    cbn [fst]. split; [intros e []|]. split.
    + simpl. intros [E|[]]. discriminate E.
    + intros _. split; [discriminate | reflexivity].
Qed.

Lemma lookup_command_queries_only_ia_witness :
  failure (@lookup_command sample_lib (calm []) "example.org" (Some "cc") (world0 ∅))
  <> None
  /\ w_trace (fst (@lookup_command sample_lib (calm []) "example.org" (Some "cc")
                     (world0 ∅))) = [].
Proof.
  apply (@lookup_command_queries_only_ia sample_lib (calm []) "example.org"
           (Some "cc") ∅).
  discriminate.
Defined.

(** ** Runs of [fetch]: further properties *)

(** X13. From the command line, a source other than [live] and [ia] is
    refused before [fetch] does anything: nothing is logged, no folder is
    made, the proxy is not started and the files are as they were. That
    includes [ia_cdx], which the embedded wayback itself accepts. *)
Theorem fetch_command_refuses_source `{PyLib} (env : Env)
    (url_file : list string) (source : string) (timestamp : option string)
    (fs : gmap string string) :
  source <> "live" -> source <> "ia" ->
  let run := fetch_command env url_file (Some source) timestamp (world0 fs) in
  fst run = world0 fs
  /\ (exists msg, failure run = Some (UsageError msg))
  /\ is_Some (EmbeddedWaybackCli.sources !! "ia_cdx").
Proof.
  intros Hl Hi run. unfold run, fetch_command, source_option, bind.
  destruct (String.eqb_spec source "live"); [contradiction|].
  destruct (String.eqb_spec source "ia"); [contradiction|].
  cbn [orb raise fst]. split; [reflexivity|]. split; [eexists; reflexivity|].
  eexists. reflexivity.
Qed.

Lemma fetch_command_refuses_source_witness :
  fst (@fetch_command sample_lib (calm []) ["https://a.example/"] (Some "ia_cdx")
         None (world0 ∅))
  = world0 ∅.
Proof.
  apply (@fetch_command_refuses_source sample_lib (calm [])
           ["https://a.example/"] "ia_cdx" None ∅); discriminate.
Defined.

(** X14. When the proxy does not start, because a folder cannot be made,
    the source is not one of the embedded wayback, or the start raises,
    [fetch] fails and does nothing more: no default timestamp is set, no
    job list is written, the capture tool is not run, [stop] is not
    called and the files are as they were. *)
Theorem fetch_without_start `{PyLib} (env : Env)
    (url_file : list string) (source timestamp : string)
    (fs : gmap string string) :
  let run := fetch env url_file source timestamp (world0 fs) in
  let t := w_trace (fst run) in
  occurs is_start t = false ->
  failure run <> None
  /\ w_files (fst run) = fs
  /\ w_proxy_default_timestamp (fst run) = None
  /\ occurs is_set_timestamp t = false
  /\ occurs is_tempfile t = false
  /\ occurs is_multi t = false
  /\ count is_stop t = 0.
Proof.
  intros run t. subst t run. fetch_run; intros Hs; try discriminate Hs;
    (split; [discriminate|]); repeat split.
Qed.

Lemma fetch_without_start_witness :
  let run :=
    @fetch sample_lib start_fails ["https://a.example/"] "ia"
      "19950101000000" (world0 ∅) in
  failure run <> None /\ w_files (fst run) = ∅.
Proof.
  destruct (@fetch_without_start sample_lib start_fails ["https://a.example/"]
              "ia" "19950101000000" ∅ eq_refl) as (Hf & Hfiles & _).
  split; assumption.
Defined.

(** X15. A source that the embedded wayback does not know makes [fetch]
    fail with the usage error of the argument parser, after the three
    folders were made and before any start. *)
Theorem fetch_unknown_source `{PyLib} (env : Env)
    (url_file : list string) (source timestamp : string)
    (fs : gmap string string) :
  EmbeddedWaybackCli.sources !! source = None ->
  (forall path, env_makedirs env path = None) ->
  let run := fetch env url_file source timestamp (world0 fs) in
  failure run = Some (UsageError "argument --source: invalid choice")
  /\ w_trace (fst run) = folders
  /\ w_log (fst run) = [(INFO, "Fetch command executed")].
Proof.
  intros Hs Hmk run. subst run. fetch_unfold. fetch_world.
  rewrite !Hmk. fetch_world. rewrite Hs. fetch_world.
  repeat split.
Qed.

Lemma fetch_unknown_source_witness :
  w_trace (fst (@fetch sample_lib (calm []) ["https://a.example/"] "cc"
                  "19950101000000" (world0 ∅)))
  = folders.
Proof.
  apply (@fetch_unknown_source sample_lib (calm []) ["https://a.example/"] "cc"
           "19950101000000" ∅); reflexivity.
Defined.

(** X16. In every run of [fetch] a call that raises is the last call of
    the run and makes [fetch] fail: nothing is cleaned up or tried again
    after it. No call is made twice: at most three folders, one start, one
    assignment of the timestamp, one temporary file, one run of the
    capture tool and one stop. *)
Theorem fetch_stops_at_first_failure `{PyLib} (env : Env)
    (url_file : list string) (source timestamp : string)
    (fs : gmap string string) :
  let run := fetch env url_file source timestamp (world0 fs) in
  let t := w_trace (fst run) in
  occurs is_raised (removelast t) = false
  /\ (occurs is_raised t = true -> failure run <> None)
  /\ count is_makedirs t <= 3
  /\ count is_start_call t <= 1
  /\ count is_set_timestamp t <= 1
  /\ count is_tempfile t <= 1
  /\ count is_multi t <= 1
  /\ count is_stop t <= 1.
Proof.
  intros run t. subst t run. fetch_run;
    (split; [reflexivity|]); (split; [intros Hr; try discriminate Hr; discriminate|]);
    cbn; repeat split; lia.
Qed.

Lemma fetch_stops_at_first_failure_witness :
  failure (@fetch sample_lib capture_fails ["https://a.example/"] "live"
             "19950101000000" (world0 ∅))
  <> None.
Proof.
  apply (@fetch_stops_at_first_failure sample_lib capture_fails
           ["https://a.example/"] "live" "19950101000000" ∅).
  reflexivity.
Defined.

(** X17. A run of [fetch] that returns has made exactly these calls, each
    of which returned, in this order: the three folders, the start with
    the source as its only argument, the sleep of three seconds, the
    assignment of the timestamp, the temporary file, the capture tool and
    the stop; and it has logged its four messages, the one of
    [run_gevent] with the port among them, and echoed nothing. *)
Theorem fetch_successful_run `{PyLib} (env : Env)
    (url_file : list string) (source timestamp : string)
    (fs : gmap string string) :
  let run := fetch env url_file source timestamp (world0 fs) in
  failure run = None ->
  w_trace (fst run)
  = (folders
     ++ [returned (CStart ["--source"; source]
                     (EmbeddedWaybackCli.load (fetch_args source)));
         returned (CSleep 3);
         returned (CSetDefaultTimestamp timestamp);
         returned (CTempfile (temp_name env "shots-" ".yaml"));
         returned (CMulti (multi_args (temp_name env "shots-" ".yaml")));
         returned CStop])%list
  /\ w_log (fst run)
     = [(INFO, "Fetch command executed");
        (INFO, "Starting Embedded Gevent Server on " ++ env_port env);
        (INFO, "PyWB started...");
        (INFO, "PyWB stopped.")]
  /\ w_stdout (fst run) = [].
Proof.
  intros run. subst run. fetch_run; intros Hf; try discriminate Hf.
  repeat split.
Qed.

Lemma fetch_successful_run_witness :
  w_log (fst (@fetch sample_lib (calm []) ["https://a.example/"] "live"
                "19950101000000" (world0 ∅)))
  = [(INFO, "Fetch command executed");
     (INFO, "Starting Embedded Gevent Server on 8080");
     (INFO, "PyWB started...");
     (INFO, "PyWB stopped.")].
Proof.
  apply (@fetch_successful_run sample_lib (calm []) ["https://a.example/"] "live"
           "19950101000000" ∅).
  reflexivity.
Defined.

(** X18. Whenever [fetch] calls the start, the three folders have been
    made just before, the only argument is the source, and the
    configuration is the one [load] builds for that source with the
    timestamp [19950101000000] of the parser as the default timestamp of
    the proxy: the timestamp given to [fetch] is not in it. *)
Theorem fetch_start_configuration `{PyLib} (env : Env)
    (url_file : list string) (source timestamp : string)
    (fs : gmap string string) (args : list string) (cfg : pyval) (b : bool) :
  let run := fetch env url_file source timestamp (world0 fs) in
  In (CStart args cfg, b) (w_trace (fst run)) ->
  args = ["--source"; source]
  /\ cfg = EmbeddedWaybackCli.load (fetch_args source)
  /\ config_default_timestamp cfg = Some (PStr "19950101000000")
  /\ exists post, w_trace (fst run) = (folders ++ (CStart args cfg, b) :: post)%list.
Proof.
  assert (Hts : forall r,
            config_default_timestamp (EmbeddedWaybackCli.load r)
            = Some (PStr (EmbeddedWaybackCli.r_timestamp r))).
  { intros r. unfold EmbeddedWaybackCli.load.
    destruct (String.eqb (EmbeddedWaybackCli.r_source r) "live"); reflexivity. }
  intros run. subst run. fetch_run; cbn [In]; intros Hin;
    repeat (destruct Hin as [Hin|Hin]; try discriminate Hin);
    try contradiction;
    inversion Hin; subst;
    (split; [reflexivity|]); (split; [reflexivity|]);
    (split; [apply Hts|]); eexists; reflexivity.
Qed.

Lemma fetch_start_configuration_witness :
  config_default_timestamp (EmbeddedWaybackCli.load (fetch_args "ia"))
  = Some (PStr "19950101000000").
Proof.
  apply (@fetch_start_configuration sample_lib (calm []) ["https://a.example/"]
           "ia" "20200101120000" ∅ ["--source"; "ia"]
           (EmbeddedWaybackCli.load (fetch_args "ia")) true).
  right. right. right. left. reflexivity.
Defined.

(** X20. Whenever [fetch] runs the capture tool, the arguments are the
    two browser arguments, the second of which sends the browser to the
    proxy at [localhost:8080], followed by the name of the job list; and
    the tool runs on files in which the job list holds the dump of the
    batch, already written and closed. *)
Theorem fetch_capture_call `{PyLib} (env : Env)
    (url_file : list string) (source timestamp : string)
    (fs : gmap string string) (args : list string) (b : bool) :
  let run := fetch env url_file source timestamp (world0 fs) in
  let name := temp_name env "shots-" ".yaml" in
  In (CMulti args, b) (w_trace (fst run)) ->
  args = ["--browser-arg"; "--ignore-certificate-errors";
          "--browser-arg"; "--proxy-server=http://localhost:8080"; name]
  /\ (b = true
      <-> env_multi env args
            (<[name := yaml_dump (PList (build_shots url_file))]> fs) = None).
Proof.
  intros run name. subst run name. fetch_run; cbn [In]; intros Hin;
    repeat (destruct Hin as [Hin|Hin]; try discriminate Hin);
    try contradiction;
    inversion Hin; subst; (split; [reflexivity|]);
    match goal with
    | Hm : env_multi _ _ _ = _ |- _ =>
        rewrite insert_insert_eq in Hm; rewrite Hm
    end;
    split; intros E; try reflexivity; discriminate E.
Qed.

Lemma fetch_capture_call_witness :
  env_multi capture_fails
    ["--browser-arg"; "--ignore-certificate-errors";
     "--browser-arg"; "--proxy-server=http://localhost:8080";
     "/tmp/shots-k3x9.yaml"]
    (<["/tmp/shots-k3x9.yaml" := "- job" ++ PyStr.LF]> ∅)
  <> None.
Proof.
  destruct (@fetch_capture_call sample_lib capture_fails ["https://a.example/"]
              "live" "19950101000000" ∅
              ["--browser-arg"; "--ignore-certificate-errors";
               "--browser-arg"; "--proxy-server=http://localhost:8080";
               "/tmp/shots-k3x9.yaml"] false) as [_ Hb].
  - do 7 right. left. reflexivity.
  - intros E. apply Hb in E. discriminate E.
Defined.

Section EmptyBatch.
Context `{PyLib}.

Lemma build_shots_unwanted url_file :
  Forall (fun line => wanted (PyStr.strip line) = false) url_file ->
  build_shots url_file = [].
Proof.
  rewrite build_shots_spec. induction 1 as [|line rest Hw _ IH]; [reflexivity|].
  cbn [List.map List.filter]. now rewrite Hw.
Qed.

End EmptyBatch.

(** X21. An input with no URL, empty or made of blank lines and comments
    only, does not stop [fetch]: when the calls return, the proxy is
    started, the capture tool is run once on the dump of the empty batch
    and the proxy is stopped. *)
Theorem fetch_empty_batch `{PyLib} (env : Env)
    (url_file : list string) (source timestamp : string)
    (fs : gmap string string) :
  Forall (fun line => wanted (PyStr.strip line) = false) url_file ->
  all_return env ->
  is_Some (EmbeddedWaybackCli.sources !! source) ->
  let run := fetch env url_file source timestamp (world0 fs) in
  failure run = None
  /\ occurs is_start (w_trace (fst run)) = true
  /\ count is_multi (w_trace (fst run)) = 1
  /\ count is_stop (w_trace (fst run)) = 1
  /\ w_files (fst run) !! temp_name env "shots-" ".yaml"
     = Some (yaml_dump (PList [])).
Proof.
  intros Hall (Hmk & Hst & Htmp & Hmu & Hstop) [s Hs] run. subst run.
  fetch_unfold. fetch_world.
  rewrite !Hmk. fetch_world. rewrite Hs. fetch_world.
  rewrite Hst. fetch_world. rewrite Htmp. fetch_world.
  rewrite Hmu. fetch_world. rewrite Hstop. fetch_world.
  rewrite (build_shots_unwanted url_file Hall).
  split; [reflexivity|]. split; [reflexivity|]. split; [reflexivity|].
  split; [reflexivity|]. apply lookup_insert_eq.
Qed.

Lemma fetch_empty_batch_witness :
  count is_multi
    (w_trace (fst (@fetch sample_lib (calm []) [""; "# nothing to fetch"] "live"
                     "19950101000000" (world0 ∅)))) = 1.
Proof.
  apply (@fetch_empty_batch sample_lib (calm []) [""; "# nothing to fetch"] "live"
           "19950101000000" ∅).
  - repeat constructor.
  - repeat split.
  - exists "$live". reflexivity.
Defined.

(** X23. Without [-s] the command works on the live web: when the proxy
    starts, it was started with the argument [live] and the stack of the
    single tier on the live web. *)
Theorem fetch_command_default_source `{PyLib} (env : Env)
    (url_file : list string) (timestamp : option string)
    (fs : gmap string string) (args : list string) (cfg : pyval) (b : bool) :
  let run := fetch_command env url_file None timestamp (world0 fs) in
  In (CStart args cfg, b) (w_trace (fst run)) ->
  args = ["--source"; "live"]
  /\ EmbeddedWaybackCli.sequence cfg = Some (PList EmbeddedWaybackCli.live_sequence).
Proof.
  intros run. subst run. unfold fetch_command, source_option, timestamp_option.
  unfold bind at 1. cbn [ret]. unfold bind at 1.
  destruct timestamp as [t|]; cbn [ret];
    fetch_run; cbn [In]; intros Hin;
    repeat (destruct Hin as [Hin|Hin]; try discriminate Hin);
    try contradiction;
    inversion Hin; subst; split; reflexivity.
Qed.

Lemma fetch_command_default_source_witness :
  EmbeddedWaybackCli.sequence (EmbeddedWaybackCli.load (fetch_args "live"))
  = Some (PList EmbeddedWaybackCli.live_sequence).
Proof.
  apply (@fetch_command_default_source sample_lib (calm []) ["https://a.example/"]
           None ∅ ["--source"; "live"]
           (EmbeddedWaybackCli.load (fetch_args "live")) true).
  right. right. right. left. reflexivity.
Defined.

(** X24. The request of [lookup] depends on the URL and the source only:
    two runs with the same URL and source ask for the same address,
    whatever the index answered before, so a resume key that was reported
    is never sent and the query always starts from the first page. *)
Theorem lookup_request_is_fixed `{PyLib} (env env' : Env) (url source : string)
    (fs fs' : gmap string string) :
  List.map fst (w_trace (fst (lookup env url source (world0 fs))))
  = List.map fst (w_trace (fst (lookup env' url source (world0 fs')))).
Proof.
  assert (Hreq : forall e f,
    exists calls,
      List.map fst (w_trace (fst (lookup e url source (world0 f)))) = calls
      /\ calls
         = match select_source source (world0 ∅) with
           | (_, inr (URL, matchType, filter)) =>
               [CUrlopen (URL ++ "?" ++ urlencode (params url matchType filter))]
           | (_, inl _) => []
           end).
  { intros e f. eexists. split; [reflexivity|].
    destruct (select_source_cases source
                (logged [(INFO, "Lookup URLs starting with: " ++ url)] (world0 f)))
      as [(Hin & pre & URL & matchType & filter & Hsel & _) | (_ & ex & Hsel)].
    - destruct (select_source_query source (world0 ∅) Hin)
        as (pre0 & URL0 & mt0 & f0 & Hsel0 & _).
      assert (Hsame : (URL0, mt0, f0) = (URL, matchType, filter)).
      { revert Hsel Hsel0. simpl in Hin.
        destruct Hin as [<-|[<-|[<-|[]]]];
          rewrite ?(select_source_cc _ _ (or_introl eq_refl)),
                  ?(select_source_cc _ _ (or_intror eq_refl)),
                  ?select_source_ia; congruence. }
      rewrite Hsel0. inversion Hsame; subst.
      rewrite (lookup_selected e url source _ _ _ _ _ Hsel).
      set (u := URL ++ "?" ++ urlencode (params url matchType filter)).
      destruct (env_urlopen e u) as [ex|response]; [reflexivity|].
      set (w1 := traced [returned (CUrlopen u)] _).
      pose proof (lookup_loop_frame response false None w1) as (Ht & _).
      destruct (lookup_loop response false None w1) as [w2 [ex|[k|]]];
        cbn [fst] in *; cbn [logged w_trace]; rewrite Ht; reflexivity.
    - rewrite (Hsel (world0 ∅)).
      now rewrite (lookup_rejected e url source _ ex Hsel). }
  destruct (Hreq env fs) as (c & <- & E), (Hreq env' fs') as (c' & <- & E').
  congruence.
Qed.
